(** * bf-app: the book service and its PostgreSQL repositories

    A shallow embedding of

      - server/internal/domain/models/books.go
      - server/internal/domain/repositories/{errors,book_repository}.go
      - server/internal/domain/services/{errors,book_service}.go
      - server/internal/infrastructure/db/postgres/book_repository.go
        (the repository that cmd/api/main.go wires into the service)
      - the second BookRepository of package postgres (unnamed/part_001),
        a variant that filters on [deleted_at IS NULL]
      - the handlers GetBook, ListBooks, UpdateBook, DeleteBook and
        handleServiceError of package handlers (unnamed/part_000)
      - getEnv and loadEnvFile of server/cmd/api/main.go

    Go values of type [error] are modelled as an inductive chain, [errors.Is]
    and [errors.As] walk that chain.  The connection pool is modelled as an
    explicit state: the rows of table [books], its id sequence, a clock and a
    script of storage faults. Every repository method is a state transformer
    on that state. *)

From Stdlib Require Import ZArith String Ascii List Bool Lia DecimalString.
Import ListNotations.

Local Open Scope string_scope.
Local Open Scope Z_scope.

(** ** Go's [int] on a 64-bit platform *)

Module GoInt.

Definition wrap (z : Z) : Z := (z + 2 ^ 63) mod 2 ^ 64 - 2 ^ 63.

Definition sub (a b : Z) : Z := wrap (a - b).
Definition mul (a b : Z) : Z := wrap (a * b).

End GoInt.

(** ** Errors: sentinels, wrapping, [errors.Is], [errors.As] *)

Module Errors.

(** Package-level [errors.New] values, compared by identity in Go. *)
Inductive sentinel : Type :=
| SvcErrNotFound          (* services.ErrNotFound *)
| SvcErrInvalidInput      (* services.ErrInvalidInput *)
| SvcErrPermissionDenied  (* services.ErrPermissionDenied *)
| SvcErrConflict          (* services.ErrConflict *)
| RepoErrBookNotFound     (* repositories.ErrBookNotFound *)
| RepoErrDuplicateISBN    (* repositories.ErrDuplicateISBN *)
| RepoErrInvalidData      (* repositories.ErrInvalidData *)
| RepoErrInvalidReference (* repositories.ErrInvalidReference *)
| PgxErrNoRows            (* pgx.ErrNoRows *)
| CtxDeadlineExceeded.    (* context.DeadlineExceeded *)

Definition sentinel_eqb (a b : sentinel) : bool :=
  match a, b with
  | SvcErrNotFound, SvcErrNotFound
  | SvcErrInvalidInput, SvcErrInvalidInput
  | SvcErrPermissionDenied, SvcErrPermissionDenied
  | SvcErrConflict, SvcErrConflict
  | RepoErrBookNotFound, RepoErrBookNotFound
  | RepoErrDuplicateISBN, RepoErrDuplicateISBN
  | RepoErrInvalidData, RepoErrInvalidData
  | RepoErrInvalidReference, RepoErrInvalidReference
  | PgxErrNoRows, PgxErrNoRows
  | CtxDeadlineExceeded, CtxDeadlineExceeded => true
  | _, _ => false
  end.

Definition sentinel_text (v : sentinel) : string :=
  match v with
  | SvcErrNotFound => "not found"
  | SvcErrInvalidInput => "invalid input"
  | SvcErrPermissionDenied => "permission denied"
  | SvcErrConflict => "conflict"
  | RepoErrBookNotFound => "book not found"
  | RepoErrDuplicateISBN => "isbn already exists"
  | RepoErrInvalidData => "invalid book data"
  | RepoErrInvalidReference =>
      "invalid reference: the referenced record does not exist"
  | PgxErrNoRows => "no rows in result set"
  | CtxDeadlineExceeded => "context deadline exceeded"
  end.

(** An [error] value.
    - [Sentinel v]: one of the package-level values above;
    - [New text]: [errors.New] at a call site, or [fmt.Errorf] without [%w]:
      a fresh value that wraps nothing;
    - [Pg code message]: a [*pgconn.PgError];
    - [Wrap text inner]: [fmt.Errorf] with one [%w] operand [inner]; [text]
      is the formatted message. *)
Inductive error : Type :=
| Sentinel (v : sentinel)
| New (text : string)
| Pg (code message : string)
| Wrap (text : string) (inner : error).

(** The [Error()] method. *)
Definition Error (e : error) : string :=
  match e with
  | Sentinel v => sentinel_text v
  | New text => text
  | Pg code message => "ERROR: " ++ message ++ " (SQLSTATE " ++ code ++ ")"
  | Wrap text _ => text
  end.

(** [errors.Is(e, target)] for a sentinel target. *)
Fixpoint Is (e : error) (target : sentinel) : bool :=
  match e with
  | Sentinel v => sentinel_eqb v target
  | New _ => false
  | Pg _ _ => false
  | Wrap _ inner => Is inner target
  end.

(** [errors.As(e, &pgErr)] with [pgErr *pgconn.PgError]: the code and
    message of the first PgError of the chain. *)
Fixpoint AsPgError (e : error) : option (string * string) :=
  match e with
  | Sentinel _ => None
  | New _ => None
  | Pg code message => Some (code, message)
  | Wrap _ inner => AsPgError inner
  end.

(** [fmt.Errorf(prefix + "%w", e)]. *)
Definition Errorf_pre (prefix : string) (e : error) : error :=
  Wrap (prefix ++ Error e) e.

(** [fmt.Errorf("%w" + suffix, e)]. *)
Definition Errorf_post (e : error) (suffix : string) : error :=
  Wrap (Error e ++ suffix) e.

(** [e] occurs in the chain of [e'] (what [Unwrap] can reach). *)
Fixpoint in_chain (e e' : error) : Prop :=
  e = e' \/
  match e' with
  | Wrap _ inner => in_chain e inner
  | _ => False
  end.

End Errors.

Import Errors.

(** A Go pair [(value, error)] in which exactly one side is set. *)
Inductive result (A : Type) : Type :=
| Ok (a : A)
| Err (e : error).
Arguments Ok {A} a.
Arguments Err {A} e.

(** ** models/books.go *)

(** [time.Time], as a number of microseconds. *)
Definition Time : Type := Z.

Record Book : Type := mkBook {
  ID : Z;
  Title : string;
  Author : string;
  Published : string;
  ISBN : string;
  Pages : Z;
  CreatedAt : Time;
  UpdatedAt : Time
}.

Record BookCreateRequest : Type := mkBookCreateRequest {
  cTitle : string;
  cAuthor : string;
  cPublished : string;
  cISBN : string;
  cPages : Z
}.

Record BookUpdateRequest : Type := mkBookUpdateRequest {
  uTitle : string;
  uAuthor : string;
  uPublished : string;
  uISBN : string;
  uPages : Z
}.

(** Go's [len(s)]: the number of bytes of [s]. *)
Definition len (s : string) : Z := Z.of_nat (String.length s).

(** ** Calendar dates and the layout [2006-01-02] *)

Module Date.

Record t : Type := mk { year : Z; month : Z; day : Z }.

Definition leap (y : Z) : bool :=
  ((y mod 4 =? 0) && negb (y mod 100 =? 0)) || (y mod 400 =? 0).

Definition days_in_month (y m : Z) : Z :=
  if m =? 2 then (if leap y then 29 else 28)
  else if (m =? 4) || (m =? 6) || (m =? 9) || (m =? 11) then 30
  else 31.

Definition digit_of (c : ascii) : option Z :=
  let n := Z.of_N (N_of_ascii c) in
  if (48 <=? n) && (n <=? 57) then Some (n - 48) else None.

Definition ascii_of_digit (d : Z) : ascii := ascii_of_N (Z.to_N (d + 48)).

Definition dash : ascii := "-"%char.

(** [time.Parse("2006-01-02", s)]: four digits, two digits, two digits,
    a month in 1..12 and a day that exists in that month. *)
Definition parse (s : string) : option t :=
  match s with
  | String y3 (String y2 (String y1 (String y0 (String s1
    (String m1 (String m0 (String s2
    (String d1 (String d0 EmptyString))))))))) =>
      match digit_of y3, digit_of y2, digit_of y1, digit_of y0,
            digit_of m1, digit_of m0, digit_of d1, digit_of d0 with
      | Some a3, Some a2, Some a1, Some a0,
        Some b1, Some b0, Some c1, Some c0 =>
          let y := 1000 * a3 + 100 * a2 + 10 * a1 + a0 in
          let m := 10 * b1 + b0 in
          let d := 10 * c1 + c0 in
          if Ascii.eqb s1 dash && Ascii.eqb s2 dash
             && (1 <=? m) && (m <=? 12)
             && (1 <=? d) && (d <=? days_in_month y m)
          then Some (mk y m d) else None
      | _, _, _, _, _, _, _, _ => None
      end
  | _ => None
  end.

(** [t.Format("2006-01-02")] for a year in 0..9999. *)
Definition format (x : t) : string :=
  let y := year x in let m := month x in let d := day x in
  String (ascii_of_digit (y / 1000))
 (String (ascii_of_digit (y / 100 mod 10))
 (String (ascii_of_digit (y / 10 mod 10))
 (String (ascii_of_digit (y mod 10))
 (String dash
 (String (ascii_of_digit (m / 10))
 (String (ascii_of_digit (m mod 10))
 (String dash
 (String (ascii_of_digit (d / 10))
 (String (ascii_of_digit (d mod 10)) EmptyString))))))))).

End Date.

(** ** The storage handle: table [books] behind a [pgxpool.Pool] *)

Module Pg.

(** One row of table [books]. *)
Record Row : Type := mkRow {
  r_id : Z;
  r_title : string;
  r_author : string;
  r_published : Date.t;
  r_isbn : string;
  r_pages : Z;
  r_created_at : Time;
  r_updated_at : Time;
  r_deleted_at : option Time
}.

(** The state behind the pool: the rows of [books] in insertion order, the
    id sequence, the server clock read by [NOW()], and a script of faults:
    the n-th statement sent to the server fails with the n-th entry when it
    is [Some e] (a lost connection, an expired context deadline, a
    constraint of another table, ...). An empty script is a server that
    never fails on its own. *)
Record Pool : Type := mkPool {
  rows : list Row;
  next_id : Z;
  now : Time;
  faults : list (option error)
}.

Definition next_fault (p : Pool) : option error :=
  match faults p with
  | f :: _ => f
  | [] => None
  end.

(** What every statement does to the pool besides its own effect: the
    clock moves on and one entry of the fault script is used up. *)
Definition advance (p : Pool) : Pool :=
  mkPool (rows p) (next_id p) (now p + 1) (tl (faults p)).

Definition with_rows (rs : list Row) (p : Pool) : Pool :=
  mkPool rs (next_id p) (now p) (faults p).

(** [deleted_at IS NULL] *)
Definition live (r : Row) : bool :=
  match r_deleted_at r with
  | None => true
  | Some _ => false
  end.

(** The [WHERE] clause of the read and update statements: [id = $1], with
    [AND deleted_at IS NULL] when [live_only]. *)
Definition matches (live_only : bool) (id : Z) (r : Row) : bool :=
  (r_id r =? id) && (negb live_only || live r).

(** The row filter of the list statements. *)
Definition visible (live_only : bool) (r : Row) : bool :=
  negb live_only || live r.

(** Modelled from the spec: the DDL of table [books] is not among the
    sources. The spec gives a unique index on [isbn] scoped to live rows;
    this is its check for a new value [isbn] written to the row [self]
    ([None] for an insert). *)
Definition isbn_taken (self : option Z) (isbn : string) (rs : list Row) : bool :=
  existsb (fun r =>
             live r && String.eqb (r_isbn r) isbn
             && match self with
                | Some id => negb (r_id r =? id)
                | None => true
                end) rs.

(** Modelled from the spec: column [published] is a calendar date
    ([YYYY-MM-DD]); the text sent for it is read in that form, and the
    server has no year 0. The SQLSTATE codes are those of PostgreSQL. *)
Definition date_in (s : string) : result Date.t :=
  match Date.parse s with
  | None => Err (Pg "22007" "invalid input syntax for type date")
  | Some d =>
      if Date.year d <? 1
      then Err (Pg "22008" "date/time field value out of range")
      else Ok d
  end.

(** [INSERT INTO books (...) VALUES ($1..$5, NOW(), NOW())
     RETURNING id, created_at, updated_at] *)
Definition insert_returning (title author published isbn : string) (pages : Z)
    (p : Pool) : result (Z * Time * Time) * Pool :=
  match next_fault p with
  | Some e => (Err e, advance p)
  | None =>
      match date_in published with
      | Err e => (Err e, advance p)
      | Ok d =>
          if isbn_taken None isbn (rows p)
          then (Err (Pg "23505"
                       "duplicate key value violates unique constraint"),
                advance p)
          else
            let row := mkRow (next_id p) title author d isbn pages
                             (now p) (now p) None in
            (Ok (next_id p, now p, now p),
             advance (mkPool (rows p ++ [row])%list (next_id p + 1)
                             (now p) (faults p)))
      end
  end.

(** [SELECT ... FROM books WHERE id = $1 [AND deleted_at IS NULL]] through
    [QueryRow(...).Scan(...)]: the first matching row, [pgx.ErrNoRows] when
    there is none. *)
Definition select_by_id (live_only : bool) (id : Z) (p : Pool)
    : result Row * Pool :=
  match next_fault p with
  | Some e => (Err e, advance p)
  | None =>
      match find (matches live_only id) (rows p) with
      | Some r => (Ok r, advance p)
      | None => (Err (Sentinel PgxErrNoRows), advance p)
      end
  end.

(** [SELECT COUNT( * ) FROM books [WHERE deleted_at IS NULL]] *)
Definition select_count (live_only : bool) (p : Pool) : result Z * Pool :=
  match next_fault p with
  | Some e => (Err e, advance p)
  | None =>
      (Ok (Z.of_nat (length (filter (visible live_only) (rows p)))),
       advance p)
  end.

(** [ORDER BY created_at DESC]: a stable insertion sort, rows with equal
    [created_at] keep their table order. *)
Fixpoint insert_desc (r : Row) (l : list Row) : list Row :=
  match l with
  | [] => [r]
  | x :: xs =>
      if r_created_at r <? r_created_at x
      then x :: insert_desc r xs
      else r :: x :: xs
  end.

Definition order_by_created_desc (l : list Row) : list Row :=
  fold_right insert_desc [] l.

(** [SELECT ... FROM books [WHERE deleted_at IS NULL]
     ORDER BY created_at DESC LIMIT $1 OFFSET $2] *)
Definition select_page (live_only : bool) (limit offset : Z) (p : Pool)
    : result (list Row) * Pool :=
  match next_fault p with
  | Some e => (Err e, advance p)
  | None =>
      if limit <? 0 then (Err (Pg "2201W" "LIMIT must not be negative"),
                          advance p)
      else if offset <? 0 then (Err (Pg "2201X" "OFFSET must not be negative"),
                                advance p)
      else
        (Ok (firstn (Z.to_nat limit)
               (skipn (Z.to_nat offset)
                  (order_by_created_desc
                     (filter (visible live_only) (rows p))))),
         advance p)
  end.

(** [UPDATE books SET title = $1, author = $2, published = $3, isbn = $4,
     pages = $5, updated_at = NOW()
     WHERE id = $6 [AND deleted_at IS NULL] RETURNING updated_at] *)
Definition update_returning (live_only : bool)
    (title author published isbn : string) (pages id : Z) (p : Pool)
    : result Time * Pool :=
  match next_fault p with
  | Some e => (Err e, advance p)
  | None =>
      match date_in published with
      | Err e => (Err e, advance p)
      | Ok d =>
          match find (matches live_only id) (rows p) with
          | None => (Err (Sentinel PgxErrNoRows), advance p)
          | Some _ =>
              if existsb (fun r => matches live_only id r && live r) (rows p)
                 && isbn_taken (Some id) isbn (rows p)
              then (Err (Pg "23505"
                           "duplicate key value violates unique constraint"),
                    advance p)
              else
                let upd r :=
                  if matches live_only id r
                  then mkRow (r_id r) title author d isbn pages
                             (r_created_at r) (now p) (r_deleted_at r)
                  else r in
                (Ok (now p), advance (with_rows (map upd (rows p)) p))
          end
      end
  end.

(** [DELETE FROM books WHERE id = $1] through [Exec]: the number of rows
    affected. *)
Definition exec_delete (id : Z) (p : Pool) : result Z * Pool :=
  match next_fault p with
  | Some e => (Err e, advance p)
  | None =>
      let kept := filter (fun r => negb (r_id r =? id)) (rows p) in
      (Ok (Z.of_nat (length (rows p)) - Z.of_nat (length kept)),
       advance (with_rows kept p))
  end.

(** [UPDATE books SET deleted_at = NOW()
     WHERE id = $1 AND deleted_at IS NULL]: the number of rows affected. *)
Definition exec_soft_delete (id : Z) (p : Pool) : result Z * Pool :=
  match next_fault p with
  | Some e => (Err e, advance p)
  | None =>
      let upd r :=
        if matches true id r
        then mkRow (r_id r) (r_title r) (r_author r) (r_published r)
                   (r_isbn r) (r_pages r) (r_created_at r) (r_updated_at r)
                   (Some (now p))
        else r in
      (Ok (Z.of_nat (length (filter (matches true id) (rows p)))),
       advance (with_rows (map upd (rows p)) p))
  end.

(** A transaction [pgx.Tx]: what [Rollback] restores. *)
Definition Tx : Type := list Row.

Definition Begin (p : Pool) : result Tx * Pool :=
  match next_fault p with
  | Some e => (Err e, advance p)
  | None => (Ok (rows p), advance p)
  end.

Definition Commit (p : Pool) : option error * Pool :=
  (next_fault p, advance p).

(** [tx.Rollback] of a transaction that was not committed. (After a
    successful [Commit] the deferred [Rollback] does nothing.) *)
Definition Rollback (tx : Tx) (p : Pool) : Pool := with_rows tx p.

(** The ids of the table come from its sequence. *)
Definition wf (p : Pool) : Prop :=
  0 < next_id p /\ Forall (fun r => r_id r < next_id p) (rows p).

End Pg.

(** ** repositories/book_repository.go: the interface *)

Module Repositories.

(** [repositories.BookRepository], over a store of type [S]. A method that
    takes a [*models.Book] and writes through it returns the book as the
    call leaves it. *)
Record BookRepository (S : Type) : Type := mkBookRepository {
  CreateBook : Book -> S -> (Book * option error) * S;
  GetByBookID : Z -> S -> result Book * S;
  FetchAllBook : Z -> Z -> S -> result (list Book * Z) * S;
  UpdateBook : Book -> S -> (Book * option error) * S;
  DeleteBook : Z -> S -> option error * S
}.
Arguments CreateBook {S} _ _ _.
Arguments GetByBookID {S} _ _ _.
Arguments FetchAllBook {S} _ _ _ _.
Arguments UpdateBook {S} _ _ _.
Arguments DeleteBook {S} _ _ _.

End Repositories.

Abbreviation BookRepository := Repositories.BookRepository.
Abbreviation mkBookRepository := Repositories.mkBookRepository.

(** ** infrastructure/db/postgres/book_repository.go *)

Module PgRepo.
Import Pg.

(** [rows.Scan] into a [models.Book]; the date goes through
    [pubDate.Format("2006-01-02")]. *)
Definition scan (r : Row) : Book :=
  mkBook (r_id r) (r_title r) (r_author r) (Date.format (r_published r))
         (r_isbn r) (r_pages r) (r_created_at r) (r_updated_at r).

Definition CreateBook (book : Book) (p : Pool) : (Book * option error) * Pool :=
  match insert_returning (Title book) (Author book) (Published book)
                         (ISBN book) (Pages book) p with
  | (Ok (id, created, updated), p') =>
      ((mkBook id (Title book) (Author book) (Published book) (ISBN book)
               (Pages book) created updated, None), p')
  | (Err err, p') =>
      match AsPgError err with
      | Some (code, message) =>
          if String.eqb code "23505"
          then ((book, Some (Sentinel RepoErrDuplicateISBN)), p')
          else if String.eqb code "23503"
          then ((book, Some (Wrap (Error (Sentinel RepoErrInvalidReference)
                                    ++ ": " ++ message)
                                  (Sentinel RepoErrInvalidReference))), p')
          else ((book, Some (Errorf_pre "failed to create book: " err)), p')
      | None => ((book, Some (Errorf_pre "failed to create book: " err)), p')
      end
  end.

Definition GetByBookID (id : Z) (p : Pool) : result Book * Pool :=
  match select_by_id false id p with
  | (Ok r, p') => (Ok (scan r), p')
  | (Err err, p') =>
      if Is err PgxErrNoRows
      then (Err (Sentinel RepoErrBookNotFound), p')
      else (Err (Errorf_pre "failed to get book: " err), p')
  end.

(** The columns match the targets of [rows.Scan], so scanning a row and
    [rows.Err()] are taken to succeed once the query has. *)
Definition FetchAllBook (page pageSize : Z) (p : Pool)
    : result (list Book * Z) * Pool :=
  match select_count false p with
  | (Err err, p1) => (Err (New ("failed to count books: " ++ Error err)), p1)
  | (Ok total, p1) =>
      let offset := GoInt.mul (GoInt.sub page 1) pageSize in
      match select_page false pageSize offset p1 with
      | (Err err, p2) => (Err (Errorf_pre "failed to fetch books: " err), p2)
      | (Ok rs, p2) => (Ok (map scan rs, total), p2)
      end
  end.

Definition UpdateBook (book : Book) (p : Pool) : (Book * option error) * Pool :=
  match update_returning false (Title book) (Author book) (Published book)
                         (ISBN book) (Pages book) (ID book) p with
  | (Ok updated, p') =>
      ((mkBook (ID book) (Title book) (Author book) (Published book)
               (ISBN book) (Pages book) (CreatedAt book) updated, None), p')
  | (Err err, p') =>
      if Is err PgxErrNoRows
      then ((book, Some (Sentinel RepoErrBookNotFound)), p')
      else ((book, Some (Errorf_pre "failed to update book: " err)), p')
  end.

Definition DeleteBook (id : Z) (p : Pool) : option error * Pool :=
  match Begin p with
  | (Err err, p1) => (Some (Errorf_pre "failed to begin transaction: " err), p1)
  | (Ok tx, p1) =>
      match exec_delete id p1 with
      | (Err err, p2) =>
          (Some (Errorf_pre "failed to delete book: " err), Rollback tx p2)
      | (Ok affected, p2) =>
          if affected =? 0
          then (Some (Sentinel RepoErrBookNotFound), Rollback tx p2)
          else
            match Commit p2 with
            | (Some err, p3) =>
                (Some (Errorf_pre "failed to commit transaction: " err),
                 Rollback tx p3)
            | (None, p3) => (None, p3)
            end
      end
  end.

Definition repo : BookRepository Pool :=
  mkBookRepository Pool CreateBook GetByBookID FetchAllBook UpdateBook
                   DeleteBook.

End PgRepo.

(** ** The second [BookRepository] of package postgres (unnamed/part_001) *)

Module PgRepoSoft.
Import Pg.

(** [rows.Scan] into a [models.Book]; [published] is scanned as text. *)
Definition scan (r : Row) : Book :=
  mkBook (r_id r) (r_title r) (r_author r) (Date.format (r_published r))
         (r_isbn r) (r_pages r) (r_created_at r) (r_updated_at r).

(** The same text as in the other repository. *)
Definition CreateBook : Book -> Pool -> (Book * option error) * Pool :=
  PgRepo.CreateBook.

(** [var book models.Book] is the zero value when the query is sent, and
    the argument of the query is [book.ID], not [id]. *)
Definition GetByBookID (id : Z) (p : Pool) : result Book * Pool :=
  let book_ID := 0 in
  match select_by_id true book_ID p with
  | (Ok r, p') => (Ok (scan r), p')
  | (Err err, p') =>
      if Is err PgxErrNoRows
      then (Err (Sentinel RepoErrBookNotFound), p')
      else (Err (Errorf_pre "failed to get book: " err), p')
  end.

(** The count runs on the transaction, the page query on the pool; scanning
    a row and [rows.Err()] are taken to succeed once the query has. *)
Definition FetchAllBook (page pageSize : Z) (p : Pool)
    : result (list Book * Z) * Pool :=
  match Begin p with
  | (Err err, p0) => (Err (Errorf_pre "failed to begin transaction: " err), p0)
  | (Ok tx, p0) =>
      match select_count true p0 with
      | (Err err, p1) =>
          (Err (Errorf_pre "failed to count books: " err), Rollback tx p1)
      | (Ok total, p1) =>
          let offset := GoInt.mul (GoInt.sub page 1) pageSize in
          match select_page true pageSize offset p1 with
          | (Err err, p2) =>
              (Err (Errorf_pre "failed to fetch books: " err), Rollback tx p2)
          | (Ok rs, p2) =>
              match Commit p2 with
              | (Some err, p3) =>
                  (Err (Errorf_pre "failed to commit transaction: " err),
                   Rollback tx p3)
              | (None, p3) => (Ok (map scan rs, total), p3)
              end
          end
      end
  end.

Definition UpdateBook (book : Book) (p : Pool) : (Book * option error) * Pool :=
  match update_returning true (Title book) (Author book) (Published book)
                         (ISBN book) (Pages book) (ID book) p with
  | (Ok updated, p') =>
      ((mkBook (ID book) (Title book) (Author book) (Published book)
               (ISBN book) (Pages book) (CreatedAt book) updated, None), p')
  | (Err err, p') =>
      if Is err PgxErrNoRows
      then ((book, Some (Sentinel RepoErrBookNotFound)), p')
      else ((book, Some (Errorf_pre "failed to update book: " err)), p')
  end.

(** The statement has no [RETURNING] clause and is run through
    [QueryRow(...).Scan(&deletedID)], outside any transaction: it is
    executed, its result set is empty, and [Scan] reports
    [pgx.ErrNoRows]. *)
Definition DeleteBook (id : Z) (p : Pool) : option error * Pool :=
  match exec_soft_delete id p with
  | (Err err, p') => (Some (Errorf_pre "failed to delete book: " err), p')
  | (Ok _, p') =>
      let err := Sentinel PgxErrNoRows in
      if Is err PgxErrNoRows
      then (Some (Sentinel RepoErrBookNotFound), p')
      else (Some (Errorf_pre "failed to delete book: " err), p')
  end.

Definition repo : BookRepository Pool :=
  mkBookRepository Pool CreateBook GetByBookID FetchAllBook UpdateBook
                   DeleteBook.

End PgRepoSoft.

(** ** services/book_service.go *)

Module BookService.

Definition validateBookCreateRequest (req : BookCreateRequest) : option error :=
  if String.eqb (cTitle req) "" then Some (New "title is required")
  else if len (cTitle req) >? 200 then Some (New "title too long")
  else None.

Definition validateBookUpdateRequest (req : BookUpdateRequest) : option error :=
  if negb (String.eqb (uTitle req) "") && (len (uTitle req) >? 200)
  then Some (New "title too long")
  else None.

(** [fmt.Errorf("%w: %v", ErrInvalidInput, err)] *)
Definition invalid_input_of (err : error) : error :=
  Errorf_post (Sentinel SvcErrInvalidInput) (": " ++ Error err).

(** [fmt.Errorf("repository error: %w", err)] *)
Definition repository_error (err : error) : error :=
  Errorf_pre "repository error: " err.

Section WithRepository.

Context {S : Type} (repo : BookRepository S).

Definition CreateBook (req : BookCreateRequest) (s : S) : result Book * S :=
  match validateBookCreateRequest req with
  | Some err => (Err (invalid_input_of err), s)
  | None =>
      let book := mkBook 0 (cTitle req) (cAuthor req) (cPublished req)
                         (cISBN req) (cPages req) 0 0 in
      if Pages book <? 5
      then (Err (Errorf_post (Sentinel SvcErrInvalidInput)
                   ": book must have atleast 5 pages"), s)
      else
        match Repositories.CreateBook repo book s with
        | ((_, Some err), s') => (Err (repository_error err), s')
        | ((book', None), s') => (Ok book', s')
        end
  end.

Definition GetByBookID (id : Z) (s : S) : result Book * S :=
  if id <=? 0
  then (Err (Errorf_post (Sentinel RepoErrInvalidData) ": invalid book ID"), s)
  else
    match Repositories.GetByBookID repo id s with
    | (Err err, s') =>
        if Is err RepoErrBookNotFound
        then (Err (Sentinel SvcErrNotFound), s')
        else (Err (repository_error err), s')
    | (Ok book, s') => (Ok book, s')
    end.

(** The pagination arguments as they reach the repository. *)
Definition clamp_page (page : Z) : Z :=
  if page <? 1 then 1 else page.

Definition clamp_pageSize (pageSize : Z) : Z :=
  if (pageSize <? 1) || (pageSize >? 100) then 20 else pageSize.

Definition FetchAllBook (page pageSize : Z) (s : S)
    : result (list Book * Z) * S :=
  let page := clamp_page page in
  let pageSize := clamp_pageSize pageSize in
  match Repositories.FetchAllBook repo page pageSize s with
  | (Err err, s') => (Err (repository_error err), s')
  | (Ok (books, total), s') => (Ok (books, total), s')
  end.

(** The four assignments of [UpdateBook] between the load and the
    store, on the loaded [book]. *)
Definition merge (book : Book) (req : BookUpdateRequest) : Book :=
  let book :=
    if negb (String.eqb (uTitle req) "")
    then mkBook (ID book) (uTitle req) (Author book) (Published book)
                (ISBN book) (Pages book) (CreatedAt book) (UpdatedAt book)
    else book in
  let book :=
    if negb (String.eqb (uAuthor req) "")
    then mkBook (ID book) (Title book) (uAuthor req) (Published book)
                (ISBN book) (Pages book) (CreatedAt book) (UpdatedAt book)
    else book in
  let book :=
    if negb (String.eqb (uISBN req) "")
    then mkBook (ID book) (Title book) (Author book) (Published book)
                (uISBN req) (Pages book) (CreatedAt book) (UpdatedAt book)
    else book in
  let book :=
    if uPages req <=? 0
    then mkBook (ID book) (Title book) (Author book) (Published book)
                (ISBN book) (uPages req) (CreatedAt book) (UpdatedAt book)
    else book in
  book.

Definition UpdateBook (id : Z) (req : BookUpdateRequest) (s : S)
    : result Book * S :=
  if id <=? 0
  then (Err (Errorf_post (Sentinel SvcErrInvalidInput) ": invalid book ID"), s)
  else
    match validateBookUpdateRequest req with
    | Some err => (Err (invalid_input_of err), s)
    | None =>
        match Repositories.GetByBookID repo id s with
        | (Err err, s1) =>
            if Is err RepoErrBookNotFound
            then (Err (Sentinel SvcErrNotFound), s1)
            else (Err (repository_error err), s1)
        | (Ok book, s1) =>
            let book := merge book req in
            match Repositories.UpdateBook repo book s1 with
            | ((_, Some err), s2) => (Err (repository_error err), s2)
            | ((book', None), s2) => (Ok book', s2)
            end
        end
    end.

Definition DeleteBook (id : Z) (s : S) : option error * S :=
  if id <=? 0
  then (Some (Errorf_post (Sentinel SvcErrInvalidInput) ": invalid book ID"), s)
  else
    match Repositories.GetByBookID repo id s with
    | (Err err, s1) =>
        if Is err RepoErrBookNotFound
        then (Some (Sentinel SvcErrNotFound), s1)
        else (Some (repository_error err), s1)
    | (Ok _, s1) =>
        match Repositories.DeleteBook repo id s1 with
        | (Some err, s2) => (Some (repository_error err), s2)
        | (None, s2) => (None, s2)
        end
    end.

End WithRepository.

End BookService.

(** ** The error kinds the transport layer tells apart

    The [switch] of [handleServiceError] (handlers): the first case that
    matches decides the response. *)

Inductive kind : Type :=
| NotFound | InvalidInput | Conflict | Timeout | Internal.

Definition kind_of (err : error) : kind :=
  if Is err SvcErrNotFound then NotFound
  else if Is err SvcErrInvalidInput then InvalidInput
  else if Is err SvcErrConflict then Conflict
  else if Is err CtxDeadlineExceeded then Timeout
  else Internal.

Definition status_of (k : kind) : Z :=
  match k with
  | NotFound => 404
  | InvalidInput => 400
  | Conflict => 409
  | Timeout => 504
  | Internal => 500
  end.

(** ** A repository that counts the calls it receives *)

Module Counted.

Section Counting.
Context {S : Type} (r : BookRepository S).

Definition run {A : Type} (m : S -> A * S) (s : S * nat) : A * (S * nat) :=
  let '(a, s') := m (fst s) in (a, (s', Datatypes.S (snd s))).

Definition repo : BookRepository (S * nat) :=
  mkBookRepository (S * nat)
    (fun b => run (Repositories.CreateBook r b))
    (fun id => run (Repositories.GetByBookID r id))
    (fun page pageSize => run (Repositories.FetchAllBook r page pageSize))
    (fun b => run (Repositories.UpdateBook r b))
    (fun id => run (Repositories.DeleteBook r id)).
End Counting.

End Counted.

(** ** Another client of the same store

    [racing r f] is [r] seen by a caller while another client of the store
    acts: [f] runs right after every [GetByBookID]. *)


(** ** The scenario of the specification: one book, "Dune" *)

Module Scenario.

Definition empty : Pg.Pool := Pg.mkPool [] 1 1000 [].

Definition dune : BookCreateRequest :=
  mkBookCreateRequest "Dune" "Herbert" "1965-08-01" "978-0-441-01359-3" 412.

Definition dune_row : Pg.Row :=
  Pg.mkRow 1 "Dune" "Herbert" (Date.mk 1965 8 1) "978-0-441-01359-3" 412
           1000 1000 None.

Definition dune_book : Book :=
  mkBook 1 "Dune" "Herbert" "1965-08-01" "978-0-441-01359-3" 412 1000 1000.

(** The store after [CreateBook dune] on the empty store. *)
Definition with_dune : Pg.Pool := Pg.mkPool [dune_row] 2 1001 [].

(** The same row with [deleted_at] set at time 1001, and the store that
    holds it. *)
Definition dune_row_deleted : Pg.Row :=
  Pg.mkRow 1 "Dune" "Herbert" (Date.mk 1965 8 1) "978-0-441-01359-3" 412
           1000 1000 (Some 1001).

Definition with_dune_deleted : Pg.Pool :=
  Pg.mkPool [dune_row_deleted] 2 1002 [].

Definition new_title : BookUpdateRequest :=
  mkBookUpdateRequest "New Title" "" "" "" 0.


End Scenario.

(** ** strconv: [Atoi] and [Itoa] on a 64-bit platform *)

Module Strconv.

Inductive NumError : Type :=
| ErrSyntax   (* strconv.ErrSyntax *)
| ErrRange.   (* strconv.ErrRange *)

(** The value of a run of decimal digits, [None] when a byte is not a
    digit. *)
Fixpoint digits (s : string) (acc : Z) : option Z :=
  match s with
  | EmptyString => Some acc
  | String c rest =>
      match Date.digit_of c with
      | Some d => digits rest (10 * acc + d)
      | None => None
      end
  end.

(** [strconv.Atoi]: an optional sign and at least one decimal digit. The
    value returned beside a syntax error is 0, beside a range error the
    nearest bound of [int]. *)
Definition Atoi (s : string) : Z * option NumError :=
  match s with
  | EmptyString => (0, Some ErrSyntax)
  | String c rest =>
      let neg := Ascii.eqb c "-" in
      let body := if neg || Ascii.eqb c "+" then rest else s in
      match body with
      | EmptyString => (0, Some ErrSyntax)
      | String _ _ =>
          match digits body 0 with
          | None => (0, Some ErrSyntax)
          | Some n =>
              if neg
              then (if n >? 2 ^ 63 then (- 2 ^ 63, Some ErrRange)
                    else (- n, None))
              else (if n >=? 2 ^ 63 then (2 ^ 63 - 1, Some ErrRange)
                    else (n, None))
          end
      end
  end.

(** [strconv.Itoa] and [strconv.FormatInt(_, 10)]. *)
Definition Itoa (z : Z) : string := NilZero.string_of_int (Z.to_int z).

End Strconv.

(** ** handlers: the transport layer in front of the service

    Requests reach a handler as the strings of the path and of the query and
    as the outcome of [c.Bind]; a response is the status, the headers the
    handler sets itself, and the JSON body. Log output is not modelled. *)

Module Handlers.

Record ValidationError : Type := mkValidationError {
  ve_Field : string;
  ve_Message : string
}.

Record ErrorResponse : Type := mkErrorResponse {
  er_Error : string;
  er_Message : string;
  er_Code : Z;
  er_Details : list ValidationError
}.

(** [models.BookListResponse] *)
Record BookListResponse : Type := mkBookListResponse {
  Data : list Book;
  Page : Z;
  PageSize : Z;
  TotalPages : Z;
  Limit : Z
}.

Inductive body : Type :=
| ErrorBody (e : ErrorResponse)
| BookBody (b : Book)
| ListBody (l : BookListResponse)
| NoBody.

Record Response : Type := mkResponse {
  Status : Z;
  Headers : list (string * string);
  Body : body
}.

(** [c.JSON(status, value)] and [c.NoContent(status)], with the headers set
    before. *)
Definition JSON (headers : list (string * string)) (status : Z) (b : body)
    : Response :=
  mkResponse status headers b.

(** [book.UpdatedAt.Unix()]: whole seconds of a time in microseconds. *)
Definition Unix (t : Time) : Z := t / 1000000.

Definition generateETag (book : Book) : string :=
  Strconv.Itoa (ID book) ++ "-" ++ Strconv.Itoa (Unix (UpdatedAt book)).

(** The service never returns a [validator.ValidationErrors], so the type
    assertion at the head of the function fails and the [switch] decides. *)
Definition handleServiceError (err : error) : Response :=
  if Is err SvcErrNotFound
  then JSON [] 404 (ErrorBody (mkErrorResponse "not_found" (Error err) 404 []))
  else if Is err SvcErrInvalidInput
  then JSON [] 400 (ErrorBody (mkErrorResponse "invalid_input" (Error err) 400 []))
  else if Is err SvcErrConflict
  then JSON [] 409 (ErrorBody (mkErrorResponse "conflict" (Error err) 409 []))
  else if Is err CtxDeadlineExceeded
  then JSON [] 504 (ErrorBody (mkErrorResponse "timeout" "Request timed out" 504 []))
  else JSON [] 500
            (ErrorBody (mkErrorResponse "internal_error" (Error err) 500 [])).

(** [validator.Struct] on [QueryParams{Page `min=1`, Limit `min=1,max=100`}]:
    [true] when the struct is valid. *)
Definition valid_QueryParams (page limit : Z) : bool :=
  (1 <=? page) && (1 <=? limit) && (limit <=? 100).

Section WithRepository.

Context {S : Type} (repo : BookRepository S).

(** [id] is [c.Param("id")]. *)
Definition GetBook (id : string) (s : S) : Response * S :=
  let '(id, err) := Strconv.Atoi id in
  if (match err with Some _ => true | None => false end) || (id <=? 0)
  then (JSON [] 400
          (ErrorBody (mkErrorResponse "invalid_id" "Invalid book ID" 404
                        [mkValidationError "id" "Must be a positive integer"])),
        s)
  else
    match BookService.GetByBookID repo id s with
    | (Err err, s') => (handleServiceError err, s')
    | (Ok book, s') =>
        (JSON [("Cache-Control", "max-age=3600, public");
               ("ETag", generateETag book)] 200 (BookBody book), s')
    end.

(** [page] and [limit] are [c.QueryParam("page")] and
    [c.QueryParam("limit")], empty when the parameter is absent. The errors
    of [Atoi] are dropped. *)
Definition ListBooks (page limit : string) (s : S) : Response * S :=
  let page := fst (Strconv.Atoi page) in
  let page := if page <? 1 then 1 else page in
  let limit := fst (Strconv.Atoi limit) in
  let limit := if (limit <? 1) || (limit >? 100) then 20 else limit in
  if negb (valid_QueryParams page limit)
  then (JSON [] 400
          (ErrorBody (mkErrorResponse "invalid_pagination"
                        "Invalid pagination parameters" 400 [])), s)
  else
    match BookService.FetchAllBook repo page limit s with
    | (Err err, s') => (handleServiceError err, s')
    | (Ok (books, total), s') =>
        (JSON [("Cache-Control", "max-age=60, public")] 200
              (ListBody (mkBookListResponse books page 0 total limit)), s')
    end.

(** [req] is the outcome of [c.Bind(&req)], [None] when it fails. *)
Definition UpdateBook (id : string) (req : option BookUpdateRequest) (s : S)
    : Response * S :=
  let '(id, err) := Strconv.Atoi id in
  if (match err with Some _ => true | None => false end) || (id <=? 0)
  then (JSON [] 400
          (ErrorBody (mkErrorResponse "invalid_id" "Invalid book ID" 404 [])), s)
  else
    match req with
    | None =>
        (JSON [] 400
           (ErrorBody (mkErrorResponse "invalid_request"
                         "Invalid request payload" 400 [])), s)
    | Some req =>
        match BookService.UpdateBook repo id req s with
        | (Err err, s') => (handleServiceError err, s')
        | (Ok book, s') => (JSON [] 200 (BookBody book), s')
        end
    end.

Definition DeleteBook (id : string) (s : S) : Response * S :=
  let '(id, err) := Strconv.Atoi id in
  if (match err with Some _ => true | None => false end) || (id <=? 0)
  then (JSON [] 400
          (ErrorBody (mkErrorResponse "invalid_id" "Invalid book ID" 404 [])), s)
  else
    match BookService.DeleteBook repo id s with
    | (Some err, s') => (handleServiceError err, s')
    | (None, s') => (JSON [] 204 NoBody, s')
    end.

End WithRepository.

End Handlers.

(** ** cmd/api/main.go: configuration from the environment

    The process environment is an association list, newest binding first.
    The file [.env] is what [os.Open] and the [bufio.Scanner] make of it:
    [None] when it cannot be opened, else its lines. [strings.TrimSpace] is a
    parameter. *)

Module Main.

Definition Environ : Type := list (string * string).

Fixpoint contains (c : ascii) (s : string) : bool :=
  match s with
  | EmptyString => false
  | String x rest => Ascii.eqb x c || contains c rest
  end.

Definition NUL : ascii := Ascii.zero.

Fixpoint assoc (key : string) (env : Environ) : option string :=
  match env with
  | [] => None
  | (k, v) :: rest => if String.eqb k key then Some v else assoc key rest
  end.

(** [os.LookupEnv] *)
Definition LookupEnv (key : string) (env : Environ) : option string :=
  if String.eqb key "" then None else assoc key env.

(** [os.Setenv]: refused (the error is dropped by the caller) for an empty
    key, a key with ['='] or a NUL byte, and a value with a NUL byte. *)
Definition Setenv (key value : string) (env : Environ) : Environ :=
  if String.eqb key "" || contains "=" key || contains NUL key
     || contains NUL value
  then env
  else (key, value) :: env.

(** [strings.SplitN(line, "=", 2)]: the text before and after the first
    ['='], [None] when there is none (a slice of length 1). *)
Fixpoint SplitN_eq (line : string) : option (string * string) :=
  match line with
  | EmptyString => None
  | String c rest =>
      if Ascii.eqb c "="
      then Some (EmptyString, rest)
      else match SplitN_eq rest with
           | Some (before, after) => Some (String c before, after)
           | None => None
           end
  end.

(** [strings.HasPrefix(line, "#")] *)
Definition HasPrefix_hash (line : string) : bool :=
  match line with
  | String c _ => Ascii.eqb c "#"
  | EmptyString => false
  end.

Section WithTrimSpace.

Variable TrimSpace : string -> string.

(** The body of the loop of [loadEnvFile]. *)
Definition loadEnvLine (env : Environ) (line : string) : Environ :=
  if String.eqb (TrimSpace line) "" || HasPrefix_hash line
  then env
  else
    match SplitN_eq line with
    | None => env
    | Some (before, after) => Setenv (TrimSpace before) (TrimSpace after) env
    end.

(** [loadEnvFile]: the environment after the call, and whether the file
    could be opened. *)
Definition loadEnvFile (file : option (list string)) (env : Environ)
    : bool * Environ :=
  match file with
  | None => (false, env)
  | Some lines => (true, fold_left loadEnvLine lines env)
  end.

Definition getEnv (key defaultValue : string) (file : option (list string))
    (env : Environ) : string * Environ :=
  let '(_, env) := loadEnvFile file env in
  match LookupEnv key env with
  | Some value => (value, env)
  | None => (defaultValue, env)
  end.

End WithTrimSpace.

(** [strings.TrimSpace] on text whose bytes are all ASCII: the six ASCII
    white-space bytes are cut from both ends. *)
Definition ascii_space (c : ascii) : bool :=
  let n := N_of_ascii c in
  ((9 <=? n) && (n <=? 13))%N || (n =? 32)%N.

Fixpoint trim_left (s : string) : string :=
  match s with
  | String c rest => if ascii_space c then trim_left rest else s
  | EmptyString => EmptyString
  end.

Fixpoint trim_right (s : string) : string :=
  match s with
  | EmptyString => EmptyString
  | String c rest =>
      match trim_right rest with
      | EmptyString => if ascii_space c then EmptyString
                       else String c EmptyString
      | r => String c r
      end
  end.

Definition TrimSpace_ascii (s : string) : string := trim_right (trim_left s).

End Main.

(** ** Auxiliary definitions for the statements *)

(** The book [CreateBook] hands to the repository. *)
Definition book_of_request (req : BookCreateRequest) : Book :=
  mkBook 0 (cTitle req) (cAuthor req) (cPublished req) (cISBN req)
         (cPages req) 0 0.

(** What [exec_soft_delete] does to one row. *)
Definition mark_deleted (id : Z) (t : Time) (r : Pg.Row) : Pg.Row :=
  if Pg.matches true id r
  then Pg.mkRow (Pg.r_id r) (Pg.r_title r) (Pg.r_author r) (Pg.r_published r)
                (Pg.r_isbn r) (Pg.r_pages r) (Pg.r_created_at r)
                (Pg.r_updated_at r) (Some t)
  else r.

(** The row [insert_returning] adds for a request. *)
Definition row_of_request (req : BookCreateRequest) (d : Date.t) (p : Pg.Pool)
    : Pg.Row :=
  Pg.mkRow (Pg.next_id p) (cTitle req) (cAuthor req) d (cISBN req) (cPages req)
           (Pg.now p) (Pg.now p) None.

(** No fault of the script matches the sentinel [v]. *)
Definition clean (v : sentinel) (p : Pg.Pool) : Prop :=
  Forall (fun f => match f with
                   | Some e => Is e v = false
                   | None => True
                   end) (Pg.faults p).

(** An outcome of a statement or of a repository method: the error, if
    there is one, does not match [v], and the store is still [clean]. *)
Definition clean_result {A : Type} (v : sentinel) (r : result A * Pg.Pool)
    : Prop :=
  clean v (snd r) /\
  match fst r with
  | Err e => Is e v = false
  | Ok _ => True
  end.

Definition clean_error {A : Type} (v : sentinel)
    (r : (A * option error) * Pg.Pool) : Prop :=
  clean v (snd r) /\
  match snd (fst r) with
  | Some e => Is e v = false
  | None => True
  end.

Definition clean_status (v : sentinel) (r : option error * Pg.Pool) : Prop :=
  clean v (snd r) /\
  match fst r with
  | Some e => Is e v = false
  | None => True
  end.

(** * Properties *)

(** ** Go's [int] *)



(** ** Error chains *)

Lemma sentinel_eqb_eq a b : sentinel_eqb a b = true <-> a = b.
Proof. destruct a, b; simpl; split; intros H; congruence. Qed.

Lemma sentinel_eqb_refl a : sentinel_eqb a a = true.
Proof. now apply sentinel_eqb_eq. Qed.

Lemma Is_Errorf_pre p e t : Is (Errorf_pre p e) t = Is e t.
Proof. reflexivity. Qed.

Lemma Is_Errorf_post e s t : Is (Errorf_post e s) t = Is e t.
Proof. reflexivity. Qed.


Lemma in_chain_Is e v : in_chain (Sentinel v) e -> Is e v = true.
Proof.
  induction e as [w | t | c m | t inner IH]; simpl; intros [H | H];
    try discriminate H; try contradiction.
  - injection H as ->. apply sentinel_eqb_refl.
  - auto.
Qed.

(** ** The layout [2006-01-02] *)

Lemma digit_of_range c d : Date.digit_of c = Some d -> 0 <= d <= 9.
Proof.
  unfold Date.digit_of.
  destruct ((48 <=? Z.of_N (N_of_ascii c)) && (Z.of_N (N_of_ascii c) <=? 57))
    eqn:E; [|discriminate].
  intros [= <-]. apply andb_prop in E. lia.
Qed.

Lemma ascii_of_digit_of c d : Date.digit_of c = Some d -> Date.ascii_of_digit d = c.
Proof.
  unfold Date.digit_of, Date.ascii_of_digit.
  destruct ((48 <=? Z.of_N (N_of_ascii c)) && (Z.of_N (N_of_ascii c) <=? 57));
    [|discriminate].
  intros [= <-].
  replace (Z.of_N (N_of_ascii c) - 48 + 48) with (Z.of_N (N_of_ascii c)) by lia.
  rewrite N2Z.id. apply ascii_N_embedding.
Qed.

Lemma two_digits a b :
  0 <= a <= 9 -> 0 <= b <= 9 ->
  (10 * a + b) / 10 = a /\ (10 * a + b) mod 10 = b.
Proof. intros Ha Hb. split; Z.div_mod_to_equations; lia. Qed.

Lemma four_digits a b c d :
  0 <= a <= 9 -> 0 <= b <= 9 -> 0 <= c <= 9 -> 0 <= d <= 9 ->
  (1000 * a + 100 * b + 10 * c + d) / 1000 = a /\
  (1000 * a + 100 * b + 10 * c + d) / 100 mod 10 = b /\
  (1000 * a + 100 * b + 10 * c + d) / 10 mod 10 = c /\
  (1000 * a + 100 * b + 10 * c + d) mod 10 = d.
Proof. intros Ha Hb Hc Hd. repeat split; Z.div_mod_to_equations; lia. Qed.

(** Formatting what the layout parsed gives the text back. *)
Lemma format_parse s x : Date.parse s = Some x -> Date.format x = s.
Proof.
  unfold Date.parse.
  destruct s as [|y3 [|y2 [|y1 [|y0 [|s1 [|m1 [|m0 [|s2 [|d1 [|d0 [|? ?]]]]]]]]]]];
    try discriminate.
  destruct (Date.digit_of y3) as [a3|] eqn:E3; [|discriminate].
  destruct (Date.digit_of y2) as [a2|] eqn:E2; [|discriminate].
  destruct (Date.digit_of y1) as [a1|] eqn:E1; [|discriminate].
  destruct (Date.digit_of y0) as [a0|] eqn:E0; [|discriminate].
  destruct (Date.digit_of m1) as [b1|] eqn:F1; [|discriminate].
  destruct (Date.digit_of m0) as [b0|] eqn:F0; [|discriminate].
  destruct (Date.digit_of d1) as [c1|] eqn:G1; [|discriminate].
  destruct (Date.digit_of d0) as [c0|] eqn:G0; [|discriminate].
  cbv zeta.
  destruct (Ascii.eqb s1 Date.dash) eqn:S1; [|discriminate].
  destruct (Ascii.eqb s2 Date.dash) eqn:S2; [|discriminate].
  cbn [andb].
  match goal with |- (if ?c then _ else _) = _ -> _ => destruct c end;
    [|discriminate].
  intros Hx.
  replace x with (Date.mk (1000 * a3 + 100 * a2 + 10 * a1 + a0)
                     (10 * b1 + b0) (10 * c1 + c0)) by congruence.
  clear Hx.
  apply Ascii.eqb_eq in S1, S2. subst s1 s2.
  pose proof (digit_of_range _ _ E3). pose proof (digit_of_range _ _ E2).
  pose proof (digit_of_range _ _ E1). pose proof (digit_of_range _ _ E0).
  pose proof (digit_of_range _ _ F1). pose proof (digit_of_range _ _ F0).
  pose proof (digit_of_range _ _ G1). pose proof (digit_of_range _ _ G0).
  destruct (four_digits a3 a2 a1 a0) as (Q3 & Q2 & Q1 & Q0); try assumption.
  destruct (two_digits b1 b0) as (R1 & R0); try assumption.
  destruct (two_digits c1 c0) as (T1 & T0); try assumption.
  unfold Date.format. cbn [Date.year Date.month Date.day].
  rewrite Q3, Q2, Q1, Q0, R1, R0, T1, T0.
  rewrite (ascii_of_digit_of _ _ E3), (ascii_of_digit_of _ _ E2),
    (ascii_of_digit_of _ _ E1), (ascii_of_digit_of _ _ E0),
    (ascii_of_digit_of _ _ F1), (ascii_of_digit_of _ _ F0),
    (ascii_of_digit_of _ _ G1), (ascii_of_digit_of _ _ G0).
  reflexivity.
Qed.


(** ** Validation comes first *)

(** C8. A create request with fewer than 5 pages is refused as InvalidInput
    and the repository is not called: whatever the repository is, the store
    comes back as it was, and a repository that counts its calls counts
    none. *)
Theorem CreateBook_pages_lt_5_InvalidInput :
  forall (S : Type) (repo : BookRepository S) (req : BookCreateRequest)
         (s : S) (n : nat),
    cPages req < 5 ->
    exists err,
      BookService.CreateBook repo req s = (Err err, s) /\
      BookService.CreateBook (Counted.repo repo) req (s, n) = (Err err, (s, n)) /\
      Is err SvcErrInvalidInput = true /\
      kind_of err = InvalidInput.
Proof.
  intros S repo req s n Hpages.
  unfold BookService.CreateBook.
  destruct (BookService.validateBookCreateRequest req) as [err|].
  - exists (BookService.invalid_input_of err). repeat split.
  - cbn [Pages].
    assert (Hlt : (cPages req <? 5) = true) by now apply Z.ltb_lt.
    rewrite Hlt. eexists. repeat split.
Qed.

Lemma CreateBook_pages_lt_5_InvalidInput_witness :
  exists err,
    BookService.CreateBook PgRepo.repo
      (mkBookCreateRequest "Dune" "Herbert" "1965-08-01" "978-0-441-01359-3" 4)
      Scenario.empty = (Err err, Scenario.empty) /\
    BookService.CreateBook (Counted.repo PgRepo.repo)
      (mkBookCreateRequest "Dune" "Herbert" "1965-08-01" "978-0-441-01359-3" 4)
      (Scenario.empty, 0%nat) = (Err err, (Scenario.empty, 0%nat)) /\
    Is err SvcErrInvalidInput = true /\
    kind_of err = InvalidInput.
Proof.
  apply (CreateBook_pages_lt_5_InvalidInput Pg.Pool PgRepo.repo
           (mkBookCreateRequest "Dune" "Herbert" "1965-08-01"
                                "978-0-441-01359-3" 4)
           Scenario.empty 0%nat).
  simpl. lia.
Defined.

(** A create request that passes validation does reach the repository:
    the counting repository counts one call. *)
Lemma CreateBook_valid_calls_repository :
  snd (snd (BookService.CreateBook (Counted.repo PgRepo.repo) Scenario.dune
              (Scenario.empty, 0%nat))) = 1%nat.
Proof. reflexivity. Qed.

(** C7. [GetByBookID] with an id that is not positive fails without calling
    the repository, and the error it returns wraps
    [repositories.ErrInvalidData]: it does not match
    [services.ErrInvalidInput], and the transport layer takes it for an
    internal error. [UpdateBook] and [DeleteBook] return InvalidInput for
    the same id. *)
Theorem GetByBookID_nonpositive_id_not_InvalidInput :
  forall (S : Type) (repo : BookRepository S) (id : Z) (s : S) (n : nat),
    id <= 0 ->
    exists err,
      BookService.GetByBookID repo id s = (Err err, s) /\
      BookService.GetByBookID (Counted.repo repo) id (s, n) = (Err err, (s, n)) /\
      Is err SvcErrInvalidInput = false /\
      Is err RepoErrInvalidData = true /\
      kind_of err = Internal /\
      (exists err', BookService.DeleteBook repo id s = (Some err', s) /\
                    Is err' SvcErrInvalidInput = true) /\
      (forall req, exists err', BookService.UpdateBook repo id req s = (Err err', s) /\
                    Is err' SvcErrInvalidInput = true).
Proof.
  intros S repo id s n Hid.
  assert (Hle : (id <=? 0) = true) by now apply Z.leb_le.
  unfold BookService.GetByBookID, BookService.DeleteBook, BookService.UpdateBook.
  rewrite Hle.
  eexists. repeat split.
  - eexists. split; reflexivity.
  - intros req. eexists. split; reflexivity.
Qed.

Lemma GetByBookID_nonpositive_id_not_InvalidInput_witness :
  exists err,
    BookService.GetByBookID PgRepo.repo 0 Scenario.with_dune
      = (Err err, Scenario.with_dune) /\
    BookService.GetByBookID (Counted.repo PgRepo.repo) 0
      (Scenario.with_dune, 0%nat) = (Err err, (Scenario.with_dune, 0%nat)) /\
    Is err SvcErrInvalidInput = false /\
    Is err RepoErrInvalidData = true /\
    kind_of err = Internal /\
    (exists err', BookService.DeleteBook PgRepo.repo 0 Scenario.with_dune
                    = (Some err', Scenario.with_dune) /\
                  Is err' SvcErrInvalidInput = true) /\
    (forall req, exists err',
        BookService.UpdateBook PgRepo.repo 0 req Scenario.with_dune
          = (Err err', Scenario.with_dune) /\
        Is err' SvcErrInvalidInput = true).
Proof.
  apply (GetByBookID_nonpositive_id_not_InvalidInput Pg.Pool PgRepo.repo 0
           Scenario.with_dune 0%nat).
  lia.
Defined.

(** ** Pagination *)

Lemma clamp_page_ge_1 page : 1 <= BookService.clamp_page page.
Proof. unfold BookService.clamp_page. destruct (Z.ltb_spec page 1); lia. Qed.

Lemma clamp_pageSize_range pageSize :
  1 <= BookService.clamp_pageSize pageSize <= 100.
Proof.
  unfold BookService.clamp_pageSize.
  destruct (Z.ltb_spec pageSize 1); simpl; [lia|].
  destruct (Z.gtb_spec pageSize 100); lia.
Qed.



Lemma next_fault_none p : Pg.faults p = [] -> Pg.next_fault p = None.
Proof. unfold Pg.next_fault. now intros ->. Qed.

Lemma faults_advance p : Pg.faults p = [] -> Pg.faults (Pg.advance p) = [].
Proof. simpl. now intros ->. Qed.





(** ** Repository errors at the service boundary *)



(** C5. When the insert of [CreateBook] is refused with SQLSTATE 23505
    (unique violation), the repository returns [ErrDuplicateISBN] and the
    service returns it under the prefix "repository error": the error does
    not match [services.ErrConflict], and the transport layer takes it for
    an internal error. *)
Theorem CreateBook_duplicate_isbn_not_Conflict :
  forall (req : BookCreateRequest) (p p' : Pg.Pool) (e : error)
         (message : string),
    BookService.validateBookCreateRequest req = None ->
    5 <= cPages req ->
    Pg.insert_returning (cTitle req) (cAuthor req) (cPublished req)
                        (cISBN req) (cPages req) p = (Err e, p') ->
    AsPgError e = Some ("23505", message) ->
    BookService.CreateBook PgRepo.repo req p
      = (Err (Wrap "repository error: isbn already exists"
                   (Sentinel RepoErrDuplicateISBN)), p') /\
    Is (Wrap "repository error: isbn already exists"
             (Sentinel RepoErrDuplicateISBN)) SvcErrConflict = false /\
    Is (Wrap "repository error: isbn already exists"
             (Sentinel RepoErrDuplicateISBN)) RepoErrDuplicateISBN = true /\
    kind_of (Wrap "repository error: isbn already exists"
                  (Sentinel RepoErrDuplicateISBN)) = Internal.
Proof.
  intros req p p' e message Hv Hpages Hins Has.
  assert (Hlt : (cPages req <? 5) = false) by now apply Z.ltb_ge.
  repeat split.
  unfold BookService.CreateBook. rewrite Hv. cbn [Pages]. rewrite Hlt.
  cbn [Repositories.CreateBook PgRepo.repo].
  unfold PgRepo.CreateBook. cbn [Title Author Published ISBN Pages].
  now rewrite Hins, Has.
Qed.

Lemma CreateBook_duplicate_isbn_not_Conflict_witness :
  BookService.CreateBook PgRepo.repo Scenario.dune Scenario.with_dune
    = (Err (Wrap "repository error: isbn already exists"
                 (Sentinel RepoErrDuplicateISBN)),
       Pg.mkPool [Scenario.dune_row] 2 1002 []).
Proof.
  apply (CreateBook_duplicate_isbn_not_Conflict Scenario.dune
           Scenario.with_dune (Pg.mkPool [Scenario.dune_row] 2 1002 [])
           (Pg "23505" "duplicate key value violates unique constraint")
           "duplicate key value violates unique constraint").
  - reflexivity.
  - simpl. lia.
  - reflexivity.
  - reflexivity.
Defined.

Lemma Is_repository_error e v :
  Is (BookService.repository_error e) v = Is e v.
Proof. reflexivity. Qed.

Lemma kind_of_repository_error e :
  kind_of (BookService.repository_error e) = kind_of e.
Proof. reflexivity. Qed.





(** ** The merge of [UpdateBook] *)

Lemma merge_Pages book req :
  Pages (BookService.merge book req)
  = if uPages req <=? 0 then uPages req else Pages book.
Proof.
  unfold BookService.merge.
  destruct (negb (String.eqb (uTitle req) "")),
    (negb (String.eqb (uAuthor req) "")),
    (negb (String.eqb (uISBN req) "")),
    (uPages req <=? 0); reflexivity.
Qed.

Lemma merge_Published book req :
  Published (BookService.merge book req) = Published book.
Proof.
  unfold BookService.merge.
  destruct (negb (String.eqb (uTitle req) "")),
    (negb (String.eqb (uAuthor req) "")),
    (negb (String.eqb (uISBN req) "")),
    (uPages req <=? 0); reflexivity.
Qed.

(** C3. The guard of the page count is [req.Pages <= 0]: a request that
    leaves [pages] out (zero) overwrites the page count of the loaded book
    with zero, and that book is what the service hands to the repository's
    update. *)
Theorem UpdateBook_omitted_pages_overwrite :
  forall (S : Type) (repo : BookRepository S) (id : Z)
         (req : BookUpdateRequest) (s s1 : S) (book : Book),
    0 < id ->
    BookService.validateBookUpdateRequest req = None ->
    Repositories.GetByBookID repo id s = (Ok book, s1) ->
    uPages req = 0 ->
    Pages (BookService.merge book req) = 0 /\
    BookService.UpdateBook repo id req s =
      match Repositories.UpdateBook repo (BookService.merge book req) s1 with
      | ((_, Some err), s2) => (Err (BookService.repository_error err), s2)
      | ((book', None), s2) => (Ok book', s2)
      end.
Proof.
  intros S repo id req s s1 book Hid Hv Hget Hpages.
  assert (Hle : (id <=? 0) = false) by now apply Z.leb_gt.
  split.
  - rewrite merge_Pages, Hpages. reflexivity.
  - unfold BookService.UpdateBook. now rewrite Hle, Hv, Hget.
Qed.

Lemma UpdateBook_omitted_pages_overwrite_witness :
  Pages (BookService.merge Scenario.dune_book Scenario.new_title) = 0 /\
  BookService.UpdateBook PgRepo.repo 1 Scenario.new_title Scenario.with_dune
  = (Ok (mkBook 1 "New Title" "Herbert" "1965-08-01" "978-0-441-01359-3" 0
                1000 1002),
     Pg.mkPool [Pg.mkRow 1 "New Title" "Herbert" (Date.mk 1965 8 1)
                         "978-0-441-01359-3" 0 1000 1002 None]
               2 1003 []).
Proof.
  destruct (UpdateBook_omitted_pages_overwrite Pg.Pool PgRepo.repo 1
              Scenario.new_title Scenario.with_dune
              (Pg.mkPool [Scenario.dune_row] 2 1002 []) Scenario.dune_book)
    as [Hpages Hrun].
  - lia.
  - reflexivity.
  - reflexivity.
  - reflexivity.
  - split; [exact Hpages|]. rewrite Hrun. reflexivity.
Defined.

(** ** Deleting a book *)

Lemma length_filter_le {A : Type} (f : A -> bool) (l : list A) :
  (length (filter f l) <= length l)%nat.
Proof.
  induction l as [|x l IH]; simpl; [lia|].
  destruct (f x); simpl; lia.
Qed.

Lemma length_filter_negb_lt {A : Type} (f : A -> bool) (l : list A) :
  existsb f l = true ->
  (length (filter (fun x => negb (f x)) l) < length l)%nat.
Proof.
  induction l as [|x l IH]; simpl; [discriminate|].
  destruct (f x); simpl.
  - intros _. pose proof (length_filter_le (fun x => negb (f x)) l). lia.
  - intros H. specialize (IH H). lia.
Qed.

Lemma length_filter_negb_eq {A : Type} (f : A -> bool) (l : list A) :
  existsb f l = false ->
  filter (fun x => negb (f x)) l = l.
Proof.
  induction l as [|x l IH]; simpl; [reflexivity|].
  destruct (f x); simpl; [discriminate|].
  intros H. now rewrite IH.
Qed.

(** X19. The repository wired into the service, on an id that is not in
    the table and a server that does not fail: [ErrBookNotFound], and the
    table is as before. *)
Lemma PgRepo_DeleteBook_missing p id :
  Pg.faults p = [] ->
  existsb (fun r => Pg.r_id r =? id) (Pg.rows p) = false ->
  exists p',
    PgRepo.DeleteBook id p = (Some (Sentinel RepoErrBookNotFound), p') /\
    Pg.rows p' = Pg.rows p.
Proof.
  intros Hf Hnone.
  unfold PgRepo.DeleteBook, Pg.Begin, Pg.exec_delete.
  rewrite (next_fault_none p Hf), (next_fault_none _ (faults_advance p Hf)).
  cbn [Pg.rows Pg.advance].
  rewrite (length_filter_negb_eq _ _ Hnone), Z.sub_diag.
  cbn. eauto.
Qed.

(** C1. On a server that does not fail and a table that holds a live row
    with the given id:
    - the [DeleteBook] that is wired into the service runs
      [DELETE FROM books WHERE id = $1] in a transaction and commits: the row
      is no longer in the table;
    - the [DeleteBook] of the other repository keeps the row and sets its
      [deleted_at], outside any transaction, and returns [ErrBookNotFound]
      although the row was there. *)
Theorem DeleteBook_hard_delete_or_not_found :
  forall (p : Pg.Pool) (id : Z),
    Pg.faults p = [] ->
    existsb (Pg.matches true id) (Pg.rows p) = true ->
    (exists p',
        PgRepo.DeleteBook id p = (None, p') /\
        Pg.rows p' = filter (fun r => negb (Pg.r_id r =? id)) (Pg.rows p) /\
        (forall r, In r (Pg.rows p') -> Pg.r_id r <> id) /\
        (length (Pg.rows p') < length (Pg.rows p))%nat) /\
    (exists p',
        PgRepoSoft.DeleteBook id p = (Some (Sentinel RepoErrBookNotFound), p') /\
        Pg.rows p' = map (mark_deleted id (Pg.now p)) (Pg.rows p) /\
        length (Pg.rows p') = length (Pg.rows p)).
Proof.
  intros p id Hf Hlive.
  assert (Hid : existsb (fun r => Pg.r_id r =? id) (Pg.rows p) = true).
  { apply existsb_exists in Hlive. destruct Hlive as (r & Hin & Hm).
    apply existsb_exists. exists r. split; [assumption|].
    unfold Pg.matches in Hm. now apply andb_prop in Hm. }
  split.
  - unfold PgRepo.DeleteBook, Pg.Begin, Pg.exec_delete, Pg.Commit.
    pose proof (faults_advance p Hf) as H1.
    rewrite (next_fault_none p Hf), (next_fault_none _ H1).
    cbn [Pg.rows Pg.advance].
    pose proof (length_filter_negb_lt _ _ Hid) as Hlt.
    destruct (Z.eqb_spec
                (Z.of_nat (length (Pg.rows p))
                 - Z.of_nat (length (filter (fun r => negb (Pg.r_id r =? id))
                                            (Pg.rows p)))) 0) as [E|_];
      [lia|].
    unfold Pg.next_fault, Pg.with_rows. cbn. rewrite Hf. cbn.
    eexists. split; [reflexivity|]. cbn. repeat split.
    + intros r Hin Heq. apply filter_In in Hin. destruct Hin as [_ Hneq].
      apply negb_true_iff, Z.eqb_neq in Hneq. contradiction.
    + exact Hlt.
  - unfold PgRepoSoft.DeleteBook, Pg.exec_soft_delete.
    rewrite (next_fault_none p Hf). cbn.
    eexists. split; [reflexivity|]. cbn. split; [reflexivity|].
    apply length_map.
Qed.

Lemma DeleteBook_hard_delete_or_not_found_witness :
  (exists p',
      PgRepo.DeleteBook 1 Scenario.with_dune = (None, p') /\
      Pg.rows p' = filter (fun r => negb (Pg.r_id r =? 1))
                          (Pg.rows Scenario.with_dune) /\
      (forall r, In r (Pg.rows p') -> Pg.r_id r <> 1) /\
      (length (Pg.rows p') < length (Pg.rows Scenario.with_dune))%nat) /\
  (exists p',
      PgRepoSoft.DeleteBook 1 Scenario.with_dune
        = (Some (Sentinel RepoErrBookNotFound), p') /\
      Pg.rows p' = map (mark_deleted 1 (Pg.now Scenario.with_dune))
                       (Pg.rows Scenario.with_dune) /\
      length (Pg.rows p') = length (Pg.rows Scenario.with_dune)).
Proof.
  apply (DeleteBook_hard_delete_or_not_found Scenario.with_dune 1).
  - reflexivity.
  - reflexivity.
Defined.

(** The same on the store of the scenario, evaluated. *)
Lemma DeleteBook_on_dune :
  PgRepo.DeleteBook 1 Scenario.with_dune = (None, Pg.mkPool [] 2 1004 []) /\
  PgRepoSoft.DeleteBook 1 Scenario.with_dune
    = (Some (Sentinel RepoErrBookNotFound), Scenario.with_dune_deleted).
Proof. split; reflexivity. Qed.

(** ** Rows with [deleted_at] set *)


(** The same for any store: the lookup of the wired repository returns a
    row whatever its [deleted_at]. *)
Lemma PgRepo_GetByBookID_ignores_deleted_at p r t :
  Pg.faults p = [] ->
  find (Pg.matches false (Pg.r_id r)) (Pg.rows p) = Some r ->
  Pg.r_deleted_at r = Some t ->
  PgRepo.GetByBookID (Pg.r_id r) p = (Ok (PgRepo.scan r), Pg.advance p).
Proof.
  intros Hf Hfind _. unfold PgRepo.GetByBookID, Pg.select_by_id.
  now rewrite (next_fault_none p Hf), Hfind.
Qed.

(** The other repository filters on [deleted_at IS NULL]. *)

Lemma visible_true r : Pg.visible true r = Pg.live r.
Proof. reflexivity. Qed.

Lemma live_deleted_at r : Pg.live r = true <-> Pg.r_deleted_at r = None.
Proof.
  unfold Pg.live. destruct (Pg.r_deleted_at r); split; intros H;
    congruence.
Qed.




Lemma PgRepoSoft_GetByBookID_live id p book p' :
  PgRepoSoft.GetByBookID id p = (Ok book, p') ->
  exists r, In r (Pg.rows p) /\ Pg.r_deleted_at r = None /\
            book = PgRepoSoft.scan r.
Proof.
  unfold PgRepoSoft.GetByBookID, Pg.select_by_id.
  destruct (Pg.next_fault p) as [e|].
  - cbn. destruct (Is e PgxErrNoRows); discriminate.
  - destruct (find (Pg.matches true 0) (Pg.rows p)) as [r|] eqn:Hfind.
    + intros [= <- _]. apply find_some in Hfind. destruct Hfind as [Hin Hm].
      exists r. repeat split; [assumption|].
      unfold Pg.matches in Hm. apply andb_prop in Hm. destruct Hm as [_ Hl].
      now apply live_deleted_at.
    + cbn. discriminate.
Qed.


(** X10. The update of the second repository, for a book whose rows all
    carry [deleted_at], fails with [ErrBookNotFound] and leaves the table as
    it was (a server that does not fail, a date the server accepts). *)
Lemma PgRepoSoft_UpdateBook_deleted book p d :
  Pg.faults p = [] ->
  Pg.date_in (Published book) = Ok d ->
  (forall r, In r (Pg.rows p) -> Pg.r_id r = ID book ->
             Pg.r_deleted_at r <> None) ->
  PgRepoSoft.UpdateBook book p
    = ((book, Some (Sentinel RepoErrBookNotFound)), Pg.advance p).
Proof.
  intros Hf Hd Hdel. unfold PgRepoSoft.UpdateBook, Pg.update_returning.
  rewrite (next_fault_none p Hf), Hd.
  destruct (find (Pg.matches true (ID book)) (Pg.rows p)) as [r|] eqn:Hfind;
    [|reflexivity].
  apply find_some in Hfind. destruct Hfind as [Hin Hm].
  unfold Pg.matches in Hm. apply andb_prop in Hm. destruct Hm as [Hid Hl].
  apply Z.eqb_eq in Hid. apply live_deleted_at in Hl.
  now destruct (Hdel r Hin Hid).
Qed.

(** ** Create, then read *)

(** What a successful [CreateBook] has done. *)
Lemma CreateBook_Ok_inv req p book p1 :
  BookService.CreateBook PgRepo.repo req p = (Ok book, p1) ->
  exists d,
    Date.parse (cPublished req) = Some d /\
    Pg.next_fault p = None /\
    book = mkBook (Pg.next_id p) (cTitle req) (cAuthor req) (cPublished req)
                  (cISBN req) (cPages req) (Pg.now p) (Pg.now p) /\
    p1 = Pg.advance (Pg.mkPool (Pg.rows p ++ [row_of_request req d p])%list
                               (Pg.next_id p + 1) (Pg.now p) (Pg.faults p)).
Proof.
  unfold BookService.CreateBook.
  destruct (BookService.validateBookCreateRequest req); [discriminate|].
  cbn [Pages]. destruct (cPages req <? 5); [discriminate|].
  cbn [Repositories.CreateBook PgRepo.repo].
  unfold PgRepo.CreateBook, Pg.insert_returning, Pg.date_in.
  cbn [Title Author Published ISBN Pages].
  destruct (Pg.next_fault p) as [e|].
  { destruct (AsPgError e) as [[code message]|]; [|discriminate].
    destruct (String.eqb code "23505"); [discriminate|].
    destruct (String.eqb code "23503"); discriminate. }
  destruct (Date.parse (cPublished req)) as [d|]; [|discriminate].
  destruct (Date.year d <? 1); [discriminate|].
  destruct (Pg.isbn_taken None (cISBN req) (Pg.rows p)); [discriminate|].
  intros [= <- <-]. exists d. repeat split.
Qed.

(** A valid request with a date in the layout and an ISBN no live row
    holds is stored, on a server that does not fail. *)
Lemma CreateBook_succeeds req p d :
  BookService.validateBookCreateRequest req = None ->
  5 <= cPages req ->
  Date.parse (cPublished req) = Some d ->
  1 <= Date.year d ->
  Pg.isbn_taken None (cISBN req) (Pg.rows p) = false ->
  Pg.faults p = [] ->
  exists book p1, BookService.CreateBook PgRepo.repo req p = (Ok book, p1).
Proof.
  intros Hv Hpages Hd Hy Hisbn Hf.
  assert (Hlt : (cPages req <? 5) = false) by now apply Z.ltb_ge.
  assert (Hy' : (Date.year d <? 1) = false) by now apply Z.ltb_ge.
  unfold BookService.CreateBook. rewrite Hv. cbn [Pages]. rewrite Hlt.
  cbn [Repositories.CreateBook PgRepo.repo].
  unfold PgRepo.CreateBook, Pg.insert_returning, Pg.date_in.
  cbn [Title Author Published ISBN Pages].
  rewrite (next_fault_none p Hf), Hd, Hy', Hisbn. eauto.
Qed.

Lemma find_app_last {A : Type} (f : A -> bool) (l : list A) (x : A) :
  find f l = None -> find f (l ++ [x]) = if f x then Some x else None.
Proof.
  induction l as [|y l IH]; simpl; [reflexivity|].
  destruct (f y); [discriminate|]. exact IH.
Qed.

Lemma find_none_of_Forall {A : Type} (f : A -> bool) (l : list A) :
  Forall (fun x => f x = false) l -> find f l = None.
Proof.
  induction 1 as [|x l Hx _ IH]; simpl; [reflexivity|]. now rewrite Hx.
Qed.

Lemma wf_fresh_id p live_only :
  Pg.wf p -> find (Pg.matches live_only (Pg.next_id p)) (Pg.rows p) = None.
Proof.
  intros [_ Hwf]. apply find_none_of_Forall.
  eapply Forall_impl; [|exact Hwf]. intros r Hr. cbn beta in Hr.
  unfold Pg.matches. destruct (Z.eqb_spec (Pg.r_id r) (Pg.next_id p)); [lia|].
  reflexivity.
Qed.

(** X6. The repository wired into the service: a book that was created is
    found under its id, field for field, and its timestamps are not
    before the call. *)
Lemma PgRepo_create_then_get req p book p1 :
  Pg.wf p ->
  Pg.faults p = [] ->
  BookService.CreateBook PgRepo.repo req p = (Ok book, p1) ->
  BookService.GetByBookID PgRepo.repo (ID book) p1 = (Ok book, Pg.advance p1) /\
  Title book = cTitle req /\ Author book = cAuthor req /\
  Published book = cPublished req /\ ISBN book = cISBN req /\
  Pages book = cPages req /\
  Pg.now p <= CreatedAt book /\ Pg.now p <= UpdatedAt book.
Proof.
  intros Hwf Hf Hcreate.
  destruct (CreateBook_Ok_inv _ _ _ _ Hcreate) as (d & Hd & _ & -> & ->).
  cbn [ID Title Author Published ISBN Pages CreatedAt UpdatedAt].
  split; [|repeat split; lia].
  assert (Hle : (Pg.next_id p <=? 0) = false)
    by (apply Z.leb_gt; now destruct Hwf).
  unfold BookService.GetByBookID. rewrite Hle.
  cbn [Repositories.GetByBookID PgRepo.repo].
  unfold PgRepo.GetByBookID, Pg.select_by_id.
  assert (Hnf : Pg.next_fault
                  (Pg.advance
                     (Pg.mkPool (Pg.rows p ++ [row_of_request req d p])%list
                                (Pg.next_id p + 1) (Pg.now p) (Pg.faults p)))
                = None).
  { apply next_fault_none. cbn. now rewrite Hf. }
  rewrite Hnf. cbn [Pg.rows Pg.advance].
  rewrite (find_app_last _ _ _ (wf_fresh_id p false Hwf)).
  unfold Pg.matches at 1. cbn [row_of_request Pg.r_id].
  rewrite Z.eqb_refl. cbn [andb negb orb].
  unfold PgRepo.scan. cbn [row_of_request Pg.r_id Pg.r_title Pg.r_author
    Pg.r_published Pg.r_isbn Pg.r_pages Pg.r_created_at Pg.r_updated_at].
  now rewrite (format_parse _ _ Hd).
Qed.

(** C4. With the other repository, whose lookup sends [book.ID] of a fresh
    [models.Book] (zero) where the id belongs, a book that was just created
    is not found under the id it was given: on a server that does not fail
    and a table without a live row of id 0, [GetByBookID] fails with
    [ErrNotFound]. *)
Theorem PgRepoSoft_create_then_get_not_found :
  forall (req : BookCreateRequest) (p p1 : Pg.Pool) (book : Book),
    Pg.wf p ->
    Pg.faults p = [] ->
    find (Pg.matches true 0) (Pg.rows p) = None ->
    BookService.CreateBook PgRepoSoft.repo req p = (Ok book, p1) ->
    BookService.GetByBookID PgRepoSoft.repo (ID book) p1
      = (Err (Sentinel SvcErrNotFound), Pg.advance p1).
Proof.
  intros req p p1 book Hwf Hf Hzero Hcreate.
  change (BookService.CreateBook PgRepo.repo req p = (Ok book, p1)) in Hcreate.
  destruct (CreateBook_Ok_inv _ _ _ _ Hcreate) as (d & Hd & _ & -> & ->).
  cbn [ID].
  assert (Hpos : 0 < Pg.next_id p) by now destruct Hwf.
  assert (Hle : (Pg.next_id p <=? 0) = false) by now apply Z.leb_gt.
  unfold BookService.GetByBookID. rewrite Hle.
  cbn [Repositories.GetByBookID PgRepoSoft.repo].
  unfold PgRepoSoft.GetByBookID, Pg.select_by_id.
  assert (Hnf : Pg.next_fault
                  (Pg.advance
                     (Pg.mkPool (Pg.rows p ++ [row_of_request req d p])%list
                                (Pg.next_id p + 1) (Pg.now p) (Pg.faults p)))
                = None).
  { apply next_fault_none. cbn. now rewrite Hf. }
  cbv zeta. rewrite Hnf. cbn [Pg.rows Pg.advance].
  rewrite (find_app_last _ _ _ Hzero).
  unfold Pg.matches at 1. cbn [row_of_request Pg.r_id].
  destruct (Z.eqb_spec (Pg.next_id p) 0); [lia|].
  reflexivity.
Qed.

Lemma PgRepoSoft_create_then_get_not_found_witness :
  BookService.GetByBookID PgRepoSoft.repo (ID Scenario.dune_book)
                          Scenario.with_dune
    = (Err (Sentinel SvcErrNotFound), Pg.advance Scenario.with_dune).
Proof.
  apply (PgRepoSoft_create_then_get_not_found Scenario.dune Scenario.empty
           Scenario.with_dune Scenario.dune_book).
  - split; [simpl; lia | constructor].
  - reflexivity.
  - reflexivity.
  - reflexivity.
Defined.

(** The scenario on the wired repository: created, then found. *)
Lemma PgRepo_create_then_get_dune :
  BookService.CreateBook PgRepo.repo Scenario.dune Scenario.empty
    = (Ok Scenario.dune_book, Scenario.with_dune) /\
  BookService.GetByBookID PgRepo.repo 1 Scenario.with_dune
    = (Ok Scenario.dune_book, Pg.advance Scenario.with_dune).
Proof. split; reflexivity. Qed.

(** ** The id sequence *)

Lemma wf_empty : Pg.wf Scenario.empty.
Proof. split; [simpl; lia | constructor]. Qed.

Lemma CreateBook_preserves_wf req p book p1 :
  Pg.wf p ->
  BookService.CreateBook PgRepo.repo req p = (Ok book, p1) ->
  Pg.wf p1 /\ 0 < ID book.
Proof.
  intros [Hpos Hwf] Hcreate.
  destruct (CreateBook_Ok_inv _ _ _ _ Hcreate) as (d & _ & _ & -> & ->).
  cbn [ID Pg.advance Pg.rows Pg.next_id Pg.wf]. unfold Pg.wf.
  cbn [Pg.advance Pg.rows Pg.next_id].
  repeat split; try lia.
  apply Forall_app. split.
  - eapply Forall_impl; [|exact Hwf]. cbn beta. intros r Hr. lia.
  - constructor; [|constructor]. cbn. lia.
Qed.

(** ** The offset of a page *)


(** Whatever the arguments, the repository is called with a page of at
    least 1 and a page size in 1..100. *)
Lemma FetchAllBook_calls_with_clamped {S : Type} (repo : BookRepository S)
    page pageSize s :
  BookService.FetchAllBook repo page pageSize s =
    match Repositories.FetchAllBook repo (BookService.clamp_page page)
            (BookService.clamp_pageSize pageSize) s with
    | (Err err, s') => (Err (BookService.repository_error err), s')
    | (Ok (books, total), s') => (Ok (books, total), s')
    end.
Proof. reflexivity. Qed.

(** A page number whose offset leaves the range of [int] is not corrected:
    the server refuses the negative offset and the service reports a
    repository error. *)
Lemma FetchAllBook_offset_overflow :
  exists err p',
    BookService.FetchAllBook PgRepo.repo (2 ^ 62 + 1) 3 Scenario.with_dune
      = (Err err, p') /\
    Is err SvcErrInvalidInput = false /\ kind_of err = Internal.
Proof. eexists. eexists. repeat split. Qed.

(** ** The total of the wired repository *)

Lemma filter_visible_false (l : list Pg.Row) : filter (Pg.visible false) l = l.
Proof.
  induction l as [|r l IH]; simpl; [reflexivity|]. now rewrite IH.
Qed.

(** The total that the wired [FetchAllBook] reports is the number of all
    rows of the table, whatever their [deleted_at]. *)
Lemma PgRepo_FetchAllBook_counts_all_rows page pageSize p books total p' :
  PgRepo.FetchAllBook page pageSize p = (Ok (books, total), p') ->
  total = Z.of_nat (length (Pg.rows p)).
Proof.
  unfold PgRepo.FetchAllBook, Pg.select_count, Pg.select_page.
  destruct (Pg.next_fault p); [discriminate|].
  destruct (Pg.next_fault (Pg.advance p)); [discriminate|].
  destruct (pageSize <? 0); [discriminate|].
  destruct (GoInt.mul (GoInt.sub page 1) pageSize <? 0); [discriminate|].
  intros [= _ <- _]. now rewrite filter_visible_false.
Qed.

(** * Further properties of the service and the repositories *)

(** ** Title validation *)

(** X1. A create request whose title is empty or longer than 200 bytes is
    refused as InvalidInput, with the message of the check that failed, and
    no repository is called. *)
Theorem CreateBook_title_InvalidInput :
  forall (S : Type) (repo : BookRepository S) (req : BookCreateRequest)
         (s : S) (n : nat),
    cTitle req = "" \/ 200 < len (cTitle req) ->
    exists err,
      BookService.CreateBook repo req s = (Err err, s) /\
      BookService.CreateBook (Counted.repo repo) req (s, n) = (Err err, (s, n)) /\
      Is err SvcErrInvalidInput = true /\
      kind_of err = InvalidInput /\
      Error err = if String.eqb (cTitle req) ""
                  then "invalid input: title is required"
                  else "invalid input: title too long".
Proof.
  intros S repo req s n Htitle.
  unfold BookService.CreateBook, BookService.validateBookCreateRequest.
  destruct (String.eqb_spec (cTitle req) "") as [E|E].
  - eexists. repeat split.
  - destruct Htitle as [Htitle|Htitle]; [contradiction|].
    assert (Hgt : (len (cTitle req) >? 200) = true)
      by (apply Z.gtb_lt; exact Htitle).
    rewrite Hgt. eexists. repeat split.
Qed.

Lemma CreateBook_title_InvalidInput_witness :
  exists err,
    BookService.CreateBook PgRepo.repo
      (mkBookCreateRequest "" "Herbert" "1965-08-01" "978-0-441-01359-3" 412)
      Scenario.empty = (Err err, Scenario.empty) /\
    BookService.CreateBook (Counted.repo PgRepo.repo)
      (mkBookCreateRequest "" "Herbert" "1965-08-01" "978-0-441-01359-3" 412)
      (Scenario.empty, 0%nat) = (Err err, (Scenario.empty, 0%nat)) /\
    Is err SvcErrInvalidInput = true /\
    kind_of err = InvalidInput /\
    Error err = "invalid input: title is required".
Proof.
  apply (CreateBook_title_InvalidInput Pg.Pool PgRepo.repo
           (mkBookCreateRequest "" "Herbert" "1965-08-01" "978-0-441-01359-3"
                                412)
           Scenario.empty 0%nat).
  left. reflexivity.
Defined.

(** X2. An update whose title is longer than 200 bytes is refused as
    InvalidInput before the book is loaded: no repository is called. *)
Theorem UpdateBook_long_title_InvalidInput :
  forall (S : Type) (repo : BookRepository S) (id : Z)
         (req : BookUpdateRequest) (s : S) (n : nat),
    0 < id ->
    200 < len (uTitle req) ->
    exists err,
      BookService.UpdateBook repo id req s = (Err err, s) /\
      BookService.UpdateBook (Counted.repo repo) id req (s, n)
        = (Err err, (s, n)) /\
      Is err SvcErrInvalidInput = true /\
      Error err = "invalid input: title too long".
Proof.
  intros S repo id req s n Hid Hlong.
  assert (Hle : (id <=? 0) = false) by now apply Z.leb_gt.
  assert (Hgt : (len (uTitle req) >? 200) = true) by now apply Z.gtb_lt.
  assert (Hne : String.eqb (uTitle req) "" = false).
  { destruct (String.eqb_spec (uTitle req) "") as [E|E]; [|reflexivity].
    rewrite E in Hlong. cbn in Hlong. lia. }
  unfold BookService.UpdateBook, BookService.validateBookUpdateRequest.
  rewrite Hle, Hne, Hgt. cbn [negb andb].
  eexists. repeat split.
Qed.

Lemma UpdateBook_long_title_InvalidInput_witness :
  exists err,
    BookService.UpdateBook PgRepo.repo 1
      (mkBookUpdateRequest (String.concat "" (repeat "abcdefghij" 21)) "" "" "" 0)
      Scenario.with_dune = (Err err, Scenario.with_dune) /\
    BookService.UpdateBook (Counted.repo PgRepo.repo) 1
      (mkBookUpdateRequest (String.concat "" (repeat "abcdefghij" 21)) "" "" "" 0)
      (Scenario.with_dune, 0%nat) = (Err err, (Scenario.with_dune, 0%nat)) /\
    Is err SvcErrInvalidInput = true /\
    Error err = "invalid input: title too long".
Proof.
  apply (UpdateBook_long_title_InvalidInput Pg.Pool PgRepo.repo 1
           (mkBookUpdateRequest (String.concat "" (repeat "abcdefghij" 21))
                                "" "" "" 0)
           Scenario.with_dune 0%nat).
  - lia.
  - vm_compute. reflexivity.
Defined.

(** ** Update, then read *)

Lemma merge_ID book req : ID (BookService.merge book req) = ID book.
Proof.
  unfold BookService.merge.
  destruct (negb (String.eqb (uTitle req) "")),
    (negb (String.eqb (uAuthor req) "")),
    (negb (String.eqb (uISBN req) "")),
    (uPages req <=? 0); reflexivity.
Qed.

Lemma merge_CreatedAt book req :
  CreatedAt (BookService.merge book req) = CreatedAt book.
Proof.
  unfold BookService.merge.
  destruct (negb (String.eqb (uTitle req) "")),
    (negb (String.eqb (uAuthor req) "")),
    (negb (String.eqb (uISBN req) "")),
    (uPages req <=? 0); reflexivity.
Qed.

Lemma merge_Title book req :
  Title (BookService.merge book req)
  = if String.eqb (uTitle req) "" then Title book else uTitle req.
Proof.
  unfold BookService.merge.
  destruct (String.eqb (uTitle req) ""),
    (negb (String.eqb (uAuthor req) "")),
    (negb (String.eqb (uISBN req) "")),
    (uPages req <=? 0); reflexivity.
Qed.

Lemma merge_Author book req :
  Author (BookService.merge book req)
  = if String.eqb (uAuthor req) "" then Author book else uAuthor req.
Proof.
  unfold BookService.merge.
  destruct (negb (String.eqb (uTitle req) "")),
    (String.eqb (uAuthor req) ""),
    (negb (String.eqb (uISBN req) "")),
    (uPages req <=? 0); reflexivity.
Qed.

Lemma merge_ISBN book req :
  ISBN (BookService.merge book req)
  = if String.eqb (uISBN req) "" then ISBN book else uISBN req.
Proof.
  unfold BookService.merge.
  destruct (negb (String.eqb (uTitle req) "")),
    (negb (String.eqb (uAuthor req) "")),
    (String.eqb (uISBN req) ""),
    (uPages req <=? 0); reflexivity.
Qed.

Lemma find_matches_id live_only id l r :
  find (Pg.matches live_only id) l = Some r -> Pg.r_id r = id.
Proof.
  intros H. apply find_some in H. destruct H as [_ H].
  unfold Pg.matches in H. apply andb_prop in H. now apply Z.eqb_eq.
Qed.

Lemma find_map_same {A : Type} (f : A -> bool) (g : A -> A) (l : list A) :
  (forall x, f (g x) = f x) ->
  find f (map g l) = option_map g (find f l).
Proof.
  intros Hfg. induction l as [|x l IH]; simpl; [reflexivity|].
  rewrite Hfg. destruct (f x); [reflexivity|exact IH].
Qed.

(** What a successful [UpdateBook] on the wired repository has done, on a
    server that does not fail. *)
Lemma UpdateBook_Ok_inv id req p book p1 :
  Pg.faults p = [] ->
  BookService.UpdateBook PgRepo.repo id req p = (Ok book, p1) ->
  exists r d,
    0 < id /\
    find (Pg.matches false id) (Pg.rows p) = Some r /\
    Pg.date_in (Published (BookService.merge (PgRepo.scan r) req)) = Ok d /\
    book = (let m := BookService.merge (PgRepo.scan r) req in
            mkBook (ID m) (Title m) (Author m) (Published m) (ISBN m) (Pages m)
                   (CreatedAt m) (Pg.now p + 1)) /\
    p1 = (let m := BookService.merge (PgRepo.scan r) req in
          Pg.advance
            (Pg.with_rows
               (map (fun x =>
                       if Pg.matches false (ID m) x
                       then Pg.mkRow (Pg.r_id x) (Title m) (Author m) d (ISBN m)
                                     (Pages m) (Pg.r_created_at x)
                                     (Pg.now p + 1) (Pg.r_deleted_at x)
                       else x) (Pg.rows p))
               (Pg.advance p))).
Proof.
  intros Hf.
  unfold BookService.UpdateBook.
  destruct (Z.leb_spec id 0) as [Hid|Hid]; [discriminate|].
  destruct (BookService.validateBookUpdateRequest req); [discriminate|].
  cbn [Repositories.GetByBookID Repositories.UpdateBook PgRepo.repo].
  unfold PgRepo.GetByBookID, Pg.select_by_id.
  rewrite (next_fault_none p Hf).
  destruct (find (Pg.matches false id) (Pg.rows p)) as [r|] eqn:Hfind;
    [|cbn; discriminate].
  unfold PgRepo.UpdateBook, Pg.update_returning.
  rewrite (next_fault_none _ (faults_advance p Hf)).
  destruct (Pg.date_in (Published (BookService.merge (PgRepo.scan r) req)))
    as [d|e] eqn:Hd.
  2:{ destruct (Is e PgxErrNoRows); discriminate. }
  cbn [Pg.rows Pg.advance Pg.now].
  destruct (find (Pg.matches false (ID (BookService.merge (PgRepo.scan r) req)))
              (Pg.rows p)); [|cbn; discriminate].
  match goal with
  | |- context [if ?c then _ else _] => destruct c
  end; [cbn; discriminate|].
  intros [= <- <-]. exists r, d. repeat split; assumption.
Qed.

Lemma date_in_parse s d : Pg.date_in s = Ok d -> Date.parse s = Some d.
Proof.
  unfold Pg.date_in. destruct (Date.parse s) as [x|]; [|discriminate].
  destruct (Date.year x <? 1); [discriminate|]. now intros [= ->].
Qed.

Lemma matches_false_id id r : Pg.matches false id r = (Pg.r_id r =? id).
Proof. unfold Pg.matches. cbn. apply andb_true_r. Qed.

(** X3. On the wired repository and a server that does not fail, a book
    that [UpdateBook] has updated is read back by [GetByBookID] exactly as
    [UpdateBook] returned it. Compared with the book stored before, the id,
    the published date and [created_at] are unchanged, whatever the request
    says; title, author and isbn are replaced by the non-empty values of the
    request; the page count is replaced only by a value that is not
    positive; [updated_at] is the time of the update statement. *)
Theorem UpdateBook_then_GetByBookID :
  forall (id : Z) (req : BookUpdateRequest) (p p1 : Pg.Pool) (book : Book),
    Pg.faults p = [] ->
    BookService.UpdateBook PgRepo.repo id req p = (Ok book, p1) ->
    BookService.GetByBookID PgRepo.repo id p1 = (Ok book, Pg.advance p1) /\
    exists old,
      BookService.GetByBookID PgRepo.repo id p = (Ok old, Pg.advance p) /\
      ID book = id /\ ID old = id /\
      Published book = Published old /\
      CreatedAt book = CreatedAt old /\
      Title book = (if String.eqb (uTitle req) "" then Title old
                    else uTitle req) /\
      Author book = (if String.eqb (uAuthor req) "" then Author old
                     else uAuthor req) /\
      ISBN book = (if String.eqb (uISBN req) "" then ISBN old
                   else uISBN req) /\
      Pages book = (if uPages req <=? 0 then uPages req else Pages old) /\
      UpdatedAt book = Pg.now p + 1.
Proof.
  intros id req p p1 book Hf Hupd.
  destruct (UpdateBook_Ok_inv _ _ _ _ _ Hf Hupd)
    as (r & d & Hid & Hfind & Hd & -> & ->).
  cbv zeta.
  pose proof (find_matches_id _ _ _ _ Hfind) as Hrid.
  assert (Hle : (id <=? 0) = false) by now apply Z.leb_gt.
  assert (Hm : ID (BookService.merge (PgRepo.scan r) req) = id)
    by (rewrite merge_ID; exact Hrid).
  split.
  - unfold BookService.GetByBookID. rewrite Hle.
    cbn [Repositories.GetByBookID PgRepo.repo].
    unfold PgRepo.GetByBookID, Pg.select_by_id.
    rewrite next_fault_none by (cbn; now rewrite Hf).
    cbn [Pg.rows Pg.advance Pg.with_rows].
    rewrite find_map_same.
    2:{ intros x. rewrite Hm, !matches_false_id.
        destruct (Pg.r_id x =? id) eqn:E; cbn [Pg.r_id]; now rewrite ?E. }
    rewrite Hfind. cbn [option_map].
    rewrite Hm, matches_false_id, Hrid, Z.eqb_refl.
    unfold PgRepo.scan at 1.
    cbn [Pg.r_id Pg.r_title Pg.r_author Pg.r_published Pg.r_isbn Pg.r_pages
         Pg.r_created_at Pg.r_updated_at].
    rewrite (format_parse _ _ (date_in_parse _ _ Hd)), merge_CreatedAt.
    reflexivity.
  - exists (PgRepo.scan r). split.
    + unfold BookService.GetByBookID. rewrite Hle.
      cbn [Repositories.GetByBookID PgRepo.repo].
      unfold PgRepo.GetByBookID, Pg.select_by_id.
      now rewrite (next_fault_none p Hf), Hfind.
    + cbn [ID Title Author Published ISBN Pages CreatedAt UpdatedAt].
      rewrite merge_Published, merge_CreatedAt, merge_Title, merge_Author,
        merge_ISBN, merge_Pages.
      repeat split; assumption.
Qed.

Lemma UpdateBook_then_GetByBookID_witness :
  BookService.GetByBookID PgRepo.repo 1
    (Pg.mkPool [Pg.mkRow 1 "New Title" "Herbert" (Date.mk 1965 8 1)
                         "978-0-441-01359-3" 0 1000 1002 None] 2 1003 [])
  = (Ok (mkBook 1 "New Title" "Herbert" "1965-08-01" "978-0-441-01359-3" 0
                1000 1002),
     Pg.advance
       (Pg.mkPool [Pg.mkRow 1 "New Title" "Herbert" (Date.mk 1965 8 1)
                            "978-0-441-01359-3" 0 1000 1002 None] 2 1003 [])).
Proof.
  apply (UpdateBook_then_GetByBookID 1 Scenario.new_title Scenario.with_dune).
  - reflexivity.
  - reflexivity.
Defined.

(** ** Delete on the wired repository *)

Lemma find_filter_ne id l :
  find (Pg.matches false id) (filter (fun r => negb (Pg.r_id r =? id)) l) = None.
Proof.
  induction l as [|x l IH]; simpl; [reflexivity|].
  destruct (Pg.r_id x =? id) eqn:E; simpl; [exact IH|].
  now rewrite matches_false_id, E.
Qed.

(** X4. [DeleteBook] of the wired repository is all or nothing, whatever
    faults the server shows: when it returns an error the table is as it
    was, and when it returns nil the table has lost exactly the rows with
    that id. *)
Theorem PgRepo_DeleteBook_all_or_nothing :
  forall (id : Z) (p : Pg.Pool),
    Pg.rows (snd (PgRepo.DeleteBook id p)) =
      match fst (PgRepo.DeleteBook id p) with
      | Some _ => Pg.rows p
      | None => filter (fun r => negb (Pg.r_id r =? id)) (Pg.rows p)
      end /\
    Pg.next_id (snd (PgRepo.DeleteBook id p)) = Pg.next_id p.
Proof.
  intros id p.
  unfold PgRepo.DeleteBook, Pg.Begin, Pg.exec_delete, Pg.Commit.
  destruct (Pg.next_fault p); [split; reflexivity|].
  destruct (Pg.next_fault (Pg.advance p)); [split; reflexivity|].
  cbn [Pg.rows Pg.advance].
  match goal with |- context [if ?c then _ else _] => destruct c end;
    [split; reflexivity|].
  match goal with
  | |- context [Pg.next_fault ?q] => destruct (Pg.next_fault q)
  end; split; reflexivity.
Qed.

(** X5. After a [DeleteBook] of the service that succeeded on the wired
    repository, the book is gone for every operation: [GetByBookID], a
    second [DeleteBook] and [UpdateBook] all fail with [ErrNotFound], and
    the rows with other ids are all still there. *)
Theorem DeleteBook_then_not_found :
  forall (id : Z) (p p1 : Pg.Pool),
    Pg.faults p = [] ->
    BookService.DeleteBook PgRepo.repo id p = (None, p1) ->
    BookService.GetByBookID PgRepo.repo id p1
      = (Err (Sentinel SvcErrNotFound), Pg.advance p1) /\
    BookService.DeleteBook PgRepo.repo id p1
      = (Some (Sentinel SvcErrNotFound), Pg.advance p1) /\
    (forall req,
        BookService.validateBookUpdateRequest req = None ->
        BookService.UpdateBook PgRepo.repo id req p1
          = (Err (Sentinel SvcErrNotFound), Pg.advance p1)) /\
    Pg.rows p1 = filter (fun r => negb (Pg.r_id r =? id)) (Pg.rows p).
Proof.
  intros id p p1 Hf Hdel.
  unfold BookService.DeleteBook in Hdel.
  destruct (Z.leb_spec id 0) as [Hid|Hid]; [discriminate|].
  assert (Hle : (id <=? 0) = false) by now apply Z.leb_gt.
  cbn [Repositories.GetByBookID Repositories.DeleteBook PgRepo.repo] in Hdel.
  unfold PgRepo.GetByBookID, Pg.select_by_id in Hdel.
  rewrite (next_fault_none p Hf) in Hdel.
  destruct (find (Pg.matches false id) (Pg.rows p)) as [r|];
    [|cbn in Hdel; discriminate].
  destruct (PgRepo.DeleteBook id (Pg.advance p)) as [res p2] eqn:Hrepo.
  destruct res as [e|]; [discriminate|]. injection Hdel as <-.
  assert (Hp2 : Pg.rows p2 = filter (fun r => negb (Pg.r_id r =? id)) (Pg.rows p)
                /\ Pg.faults p2 = []).
  { revert Hrepo.
    unfold PgRepo.DeleteBook, Pg.Begin, Pg.exec_delete, Pg.Commit.
    pose proof (faults_advance p Hf) as H1.
    pose proof (faults_advance _ H1) as H2.
    rewrite (next_fault_none _ H1), (next_fault_none _ H2).
    cbn [Pg.rows Pg.advance].
    match goal with |- context [if ?c then _ else _] => destruct c end;
      [discriminate|].
    unfold Pg.next_fault at 1. cbn. rewrite Hf. cbn.
    intros [= <-]. cbn. now rewrite Hf. }
  destruct Hp2 as [Hrows Hf2].
  assert (Hget : PgRepo.GetByBookID id p2
                 = (Err (Sentinel RepoErrBookNotFound), Pg.advance p2)).
  { unfold PgRepo.GetByBookID, Pg.select_by_id.
    now rewrite (next_fault_none p2 Hf2), Hrows, find_filter_ne. }
  repeat split.
  - unfold BookService.GetByBookID. rewrite Hle.
    cbn [Repositories.GetByBookID PgRepo.repo]. now rewrite Hget.
  - unfold BookService.DeleteBook. rewrite Hle.
    cbn [Repositories.GetByBookID PgRepo.repo]. now rewrite Hget.
  - intros req Hv. unfold BookService.UpdateBook. rewrite Hle, Hv.
    cbn [Repositories.GetByBookID PgRepo.repo]. now rewrite Hget.
  - exact Hrows.
Qed.

Lemma DeleteBook_then_not_found_witness :
  BookService.GetByBookID PgRepo.repo 1 (Pg.mkPool [] 2 1005 [])
    = (Err (Sentinel SvcErrNotFound), Pg.advance (Pg.mkPool [] 2 1005 [])).
Proof.
  apply (DeleteBook_then_not_found 1 Scenario.with_dune
           (Pg.mkPool [] 2 1005 [])).
  - reflexivity.
  - reflexivity.
Defined.

Lemma PgRepo_create_then_get_witness :
  BookService.GetByBookID PgRepo.repo (ID Scenario.dune_book) Scenario.with_dune
    = (Ok Scenario.dune_book, Pg.advance Scenario.with_dune) /\
  Title Scenario.dune_book = cTitle Scenario.dune /\
  Author Scenario.dune_book = cAuthor Scenario.dune /\
  Published Scenario.dune_book = cPublished Scenario.dune /\
  ISBN Scenario.dune_book = cISBN Scenario.dune /\
  Pages Scenario.dune_book = cPages Scenario.dune /\
  Pg.now Scenario.empty <= CreatedAt Scenario.dune_book /\
  Pg.now Scenario.empty <= UpdatedAt Scenario.dune_book.
Proof.
  apply (PgRepo_create_then_get Scenario.dune Scenario.empty).
  - split; [simpl; lia | constructor].
  - reflexivity.
  - reflexivity.
Defined.

(** ** Failures of the list queries *)

(** X7. When the count query of the wired [FetchAllBook] fails, the
    repository formats the failure with [%s]: the error the service returns
    matches no sentinel at all, so an expired deadline on the count is
    reported as an internal error. When the count succeeds and the page query
    fails, the failure is wrapped with [%w] and keeps its kind. The other
    repository wraps both with [%w]. *)
Theorem FetchAllBook_count_failure_loses_the_chain :
  forall (page pageSize : Z) (p : Pg.Pool) (e : error),
    Pg.next_fault p = Some e ->
    (exists err,
        BookService.FetchAllBook PgRepo.repo page pageSize p
          = (Err err, Pg.advance p) /\
        Error err = "repository error: failed to count books: " ++ Error e /\
        (forall v, Is err v = false) /\
        kind_of err = Internal) /\
    (forall q, Pg.next_fault q = None -> Pg.advance q = p ->
        exists err q',
          BookService.FetchAllBook PgRepo.repo page pageSize q = (Err err, q') /\
          (forall v, Is err v = Is e v) /\
          kind_of err = kind_of e) /\
    (forall q, Pg.next_fault q = None -> Pg.advance q = p ->
        exists err q',
          BookService.FetchAllBook PgRepoSoft.repo page pageSize q
            = (Err err, q') /\
          (forall v, Is err v = Is e v) /\
          kind_of err = kind_of e).
Proof.
  intros page pageSize p e Hfault. split; [|split].
  - unfold BookService.FetchAllBook.
    cbn [Repositories.FetchAllBook PgRepo.repo].
    unfold PgRepo.FetchAllBook, Pg.select_count. rewrite Hfault.
    eexists. repeat split.
  - intros q Hq <-. unfold BookService.FetchAllBook.
    cbn [Repositories.FetchAllBook PgRepo.repo].
    unfold PgRepo.FetchAllBook, Pg.select_count, Pg.select_page.
    rewrite Hq, Hfault. eexists. eexists. repeat split.
  - intros q Hq <-. unfold BookService.FetchAllBook.
    cbn [Repositories.FetchAllBook PgRepoSoft.repo].
    unfold PgRepoSoft.FetchAllBook, Pg.Begin, Pg.select_count.
    rewrite Hq, Hfault. eexists. eexists. repeat split.
Qed.

Lemma FetchAllBook_count_failure_loses_the_chain_witness :
  exists err,
    BookService.FetchAllBook PgRepo.repo 1 20
      (Pg.mkPool [Scenario.dune_row] 2 1001 [Some (Sentinel CtxDeadlineExceeded)])
      = (Err err, Pg.mkPool [Scenario.dune_row] 2 1002 []) /\
    Error err
      = "repository error: failed to count books: context deadline exceeded" /\
    (forall v, Is err v = false) /\
    kind_of err = Internal.
Proof.
  apply (proj1 (FetchAllBook_count_failure_loses_the_chain 1 20
                  (Pg.mkPool [Scenario.dune_row] 2 1001
                             [Some (Sentinel CtxDeadlineExceeded)])
                  (Sentinel CtxDeadlineExceeded) eq_refl)).
Defined.

(** ** Pages *)






(** ** The second repository *)


Lemma PgRepoSoft_UpdateBook_deleted_witness :
  PgRepoSoft.UpdateBook Scenario.dune_book Scenario.with_dune_deleted
    = ((Scenario.dune_book, Some (Sentinel RepoErrBookNotFound)),
       Pg.advance Scenario.with_dune_deleted).
Proof.
  apply (PgRepoSoft_UpdateBook_deleted Scenario.dune_book
           Scenario.with_dune_deleted (Date.mk 1965 8 1)).
  - reflexivity.
  - reflexivity.
  - intros r [<-|[]] _. discriminate.
Defined.

(** X11. [DeleteBook] of the second repository never reports success: for
    every id and every store it returns an error, also through the service,
    and it neither adds nor removes a row. *)
Theorem PgRepoSoft_DeleteBook_never_succeeds :
  forall (id : Z) (p : Pg.Pool),
    fst (PgRepoSoft.DeleteBook id p) <> None /\
    fst (BookService.DeleteBook PgRepoSoft.repo id p) <> None /\
    length (Pg.rows (snd (PgRepoSoft.DeleteBook id p))) = length (Pg.rows p).
Proof.
  intros id p. repeat split.
  - unfold PgRepoSoft.DeleteBook, Pg.exec_soft_delete.
    destruct (Pg.next_fault p); cbn; discriminate.
  - unfold BookService.DeleteBook.
    destruct (id <=? 0); [cbn; discriminate|].
    cbn [Repositories.GetByBookID Repositories.DeleteBook PgRepoSoft.repo].
    destruct (PgRepoSoft.GetByBookID id p) as [[book|e] p1].
    + unfold PgRepoSoft.DeleteBook, Pg.exec_soft_delete.
      destruct (Pg.next_fault p1); cbn; discriminate.
    + destruct (Is e RepoErrBookNotFound); cbn; discriminate.
  - unfold PgRepoSoft.DeleteBook, Pg.exec_soft_delete.
    destruct (Pg.next_fault p); cbn; [reflexivity|]. apply length_map.
Qed.

Lemma mark_deleted_twice id t t' r :
  mark_deleted id t' (mark_deleted id t r) = mark_deleted id t r.
Proof.
  unfold mark_deleted.
  destruct (Pg.matches true id r) eqn:E; [|now rewrite E].
  unfold Pg.matches, Pg.live. cbn. now rewrite andb_false_r.
Qed.

(** X12. Repeating the soft delete changes nothing: once the statement of
    the second repository has run for an id, running [DeleteBook] for that
    id again, at any later time, leaves every row as the first run left it
    (in particular the first [deleted_at] is kept). *)
Theorem PgRepoSoft_DeleteBook_twice :
  forall (id : Z) (p : Pg.Pool),
    Pg.next_fault p = None ->
    Pg.rows (snd (PgRepoSoft.DeleteBook id (snd (PgRepoSoft.DeleteBook id p))))
    = Pg.rows (snd (PgRepoSoft.DeleteBook id p)) /\
    Pg.rows (snd (PgRepoSoft.DeleteBook id p))
    = map (mark_deleted id (Pg.now p)) (Pg.rows p).
Proof.
  intros id p Hnf.
  assert (Hfirst : Pg.rows (snd (PgRepoSoft.DeleteBook id p))
                   = map (mark_deleted id (Pg.now p)) (Pg.rows p)).
  { unfold PgRepoSoft.DeleteBook, Pg.exec_soft_delete. now rewrite Hnf. }
  split; [|exact Hfirst].
  remember (snd (PgRepoSoft.DeleteBook id p)) as p1 eqn:Hp1.
  unfold PgRepoSoft.DeleteBook at 1. unfold Pg.exec_soft_delete.
  destruct (Pg.next_fault p1); [reflexivity|].
  cbn [snd Pg.rows Pg.advance Pg.with_rows]. cbn.
  rewrite Hfirst, map_map. apply map_ext.
  intros r. apply (mark_deleted_twice id (Pg.now p) (Pg.now p1) r).
Qed.

Lemma PgRepoSoft_DeleteBook_twice_witness :
  Pg.rows (snd (PgRepoSoft.DeleteBook 1
                  (snd (PgRepoSoft.DeleteBook 1 Scenario.with_dune))))
  = Pg.rows (snd (PgRepoSoft.DeleteBook 1 Scenario.with_dune)) /\
  Pg.rows (snd (PgRepoSoft.DeleteBook 1 Scenario.with_dune))
  = map (mark_deleted 1 (Pg.now Scenario.with_dune))
        (Pg.rows Scenario.with_dune).
Proof.
  apply (PgRepoSoft_DeleteBook_twice 1 Scenario.with_dune).
  reflexivity.
Defined.

(** ** Kinds the service never produces *)

Lemma clean_next_fault v p e :
  clean v p -> Pg.next_fault p = Some e -> Is e v = false.
Proof.
  unfold clean, Pg.next_fault. destruct (Pg.faults p) as [|f fs]; [discriminate|].
  intros H [= ->]. now inversion H.
Qed.

Lemma clean_advance v p : clean v p -> clean v (Pg.advance p).
Proof.
  unfold clean. cbn. destruct (Pg.faults p) as [|f fs]; cbn; [auto|].
  intros H. now inversion H.
Qed.

Lemma clean_same_faults v p q :
  Pg.faults q = Pg.faults p -> clean v p -> clean v q.
Proof. unfold clean. now intros ->. Qed.

Lemma clean_date_in v s e : Pg.date_in s = Err e -> Is e v = false.
Proof.
  unfold Pg.date_in. destruct (Date.parse s) as [d|].
  - destruct (Date.year d <? 1); [|discriminate]. now intros [= <-].
  - now intros [= <-].
Qed.

Ltac clean_step v Hc :=
  match goal with
  | |- context [Pg.next_fault ?q] =>
      let e := fresh "e" in
      let E := fresh "E" in
      let H := fresh "H" in
      destruct (Pg.next_fault q) as [e|] eqn:E;
      [pose proof (clean_next_fault v q e Hc E) as H|]
  end.

Section NeverMade.

Variable v : sentinel.
Hypothesis Hv : v = SvcErrConflict \/ v = SvcErrPermissionDenied.

Lemma not_made (w : sentinel) :
  w <> SvcErrConflict -> w <> SvcErrPermissionDenied ->
  Is (Sentinel w) v = false.
Proof.
  intros H1 H2. destruct Hv as [->| ->]; destruct w; cbn; congruence.
Qed.

Lemma clean_select_by_id live_only id p :
  clean v p -> clean_result v (Pg.select_by_id live_only id p).
Proof.
  intros Hc. unfold Pg.select_by_id. clean_step v Hc.
  - split; [now apply clean_advance|assumption].
  - destruct (find _ _); (split; [now apply clean_advance|]); cbn [fst]; trivial.
    apply not_made; discriminate.
Qed.

Lemma clean_insert_returning title author published isbn pages p :
  clean v p ->
  clean_result v (Pg.insert_returning title author published isbn pages p).
Proof.
  intros Hc. unfold Pg.insert_returning. clean_step v Hc.
  - split; [now apply clean_advance|assumption].
  - destruct (Pg.date_in published) as [d|e] eqn:Hd.
    + destruct (Pg.isbn_taken None isbn (Pg.rows p)).
      * split; [now apply clean_advance|reflexivity].
      * split; [|exact I]. cbn [snd].
        apply (clean_same_faults v (Pg.advance p)); [reflexivity|].
        now apply clean_advance.
    + split; [now apply clean_advance|]. exact (clean_date_in v _ _ Hd).
Qed.

Lemma clean_select_count live_only p :
  clean v p -> clean_result v (Pg.select_count live_only p).
Proof.
  intros Hc. unfold Pg.select_count. clean_step v Hc;
    (split; [now apply clean_advance|]); cbn [fst]; trivial.
Qed.

Lemma clean_select_page live_only limit offset p :
  clean v p -> clean_result v (Pg.select_page live_only limit offset p).
Proof.
  intros Hc. unfold Pg.select_page. clean_step v Hc.
  - split; [now apply clean_advance|assumption].
  - destruct (limit <? 0); [split; [now apply clean_advance|reflexivity]|].
    destruct (offset <? 0); (split; [now apply clean_advance|]);
      cbn [fst]; trivial.
Qed.

Lemma clean_update_returning live_only title author published isbn pages id p :
  clean v p ->
  clean_result v (Pg.update_returning live_only title author published isbn
                                      pages id p).
Proof.
  intros Hc. unfold Pg.update_returning. clean_step v Hc.
  - split; [now apply clean_advance|assumption].
  - destruct (Pg.date_in published) as [d|e] eqn:Hd.
    2:{ split; [now apply clean_advance|]. exact (clean_date_in v _ _ Hd). }
    destruct (find _ _).
    2:{ split; [now apply clean_advance|]. cbn [fst].
        apply not_made; discriminate. }
    match goal with |- context [if ?c then _ else _] => destruct c end.
    + split; [now apply clean_advance|reflexivity].
    + split; [|exact I]. cbn [snd].
      apply (clean_same_faults v (Pg.advance p)); [reflexivity|].
      now apply clean_advance.
Qed.

Lemma clean_exec_delete id p :
  clean v p -> clean_result v (Pg.exec_delete id p).
Proof.
  intros Hc. unfold Pg.exec_delete. clean_step v Hc.
  - split; [now apply clean_advance|assumption].
  - split; [|exact I]. cbn [snd].
    apply (clean_same_faults v (Pg.advance p)); [reflexivity|].
    now apply clean_advance.
Qed.

Lemma clean_PgRepo_CreateBook book p :
  clean v p -> clean_error v (PgRepo.CreateBook book p).
Proof.
  intros Hc. unfold PgRepo.CreateBook.
  destruct (clean_insert_returning (Title book) (Author book) (Published book)
              (ISBN book) (Pages book) p Hc) as [Hp He].
  destruct (Pg.insert_returning _ _ _ _ _ p) as [[[[id c] u]|e] p'];
    cbn [fst snd] in *.
  - split; [assumption|exact I].
  - destruct (AsPgError e) as [[code message]|].
    + destruct (String.eqb code "23505").
      { split; [assumption|]. cbn [fst snd]. apply not_made; discriminate. }
      destruct (String.eqb code "23503").
      { split; [assumption|]. cbn [fst snd].
        change (Is (Sentinel RepoErrInvalidReference) v = false).
        apply not_made; discriminate. }
      split; assumption.
    + split; assumption.
Qed.

Lemma clean_PgRepo_GetByBookID id p :
  clean v p -> clean_result v (PgRepo.GetByBookID id p).
Proof.
  intros Hc. unfold PgRepo.GetByBookID.
  destruct (clean_select_by_id false id p Hc) as [Hp He].
  destruct (Pg.select_by_id false id p) as [[r|e] p']; cbn [fst snd] in *.
  - split; [assumption|exact I].
  - destruct (Is e PgxErrNoRows); (split; [assumption|]); cbn [fst snd];
      [apply not_made; discriminate|assumption].
Qed.

Lemma clean_PgRepo_FetchAllBook page pageSize p :
  clean v p -> clean_result v (PgRepo.FetchAllBook page pageSize p).
Proof.
  intros Hc. unfold PgRepo.FetchAllBook.
  destruct (clean_select_count false p Hc) as [Hp He].
  destruct (Pg.select_count false p) as [[total|e] p1]; cbn [fst snd] in *.
  2:{ split; [assumption|reflexivity]. }
  destruct (clean_select_page false pageSize
              (GoInt.mul (GoInt.sub page 1) pageSize) p1 Hp) as [Hp2 He2].
  destruct (Pg.select_page false pageSize _ p1) as [[rs|e] p2];
    cbn [fst snd] in *; split; trivial.
Qed.

Lemma clean_PgRepo_UpdateBook book p :
  clean v p -> clean_error v (PgRepo.UpdateBook book p).
Proof.
  intros Hc. unfold PgRepo.UpdateBook.
  destruct (clean_update_returning false (Title book) (Author book)
              (Published book) (ISBN book) (Pages book) (ID book) p Hc)
    as [Hp He].
  destruct (Pg.update_returning _ _ _ _ _ _ _ p) as [[u|e] p'];
    cbn [fst snd] in *.
  - split; [assumption|exact I].
  - destruct (Is e PgxErrNoRows); (split; [assumption|]); cbn [fst snd];
      [apply not_made; discriminate|assumption].
Qed.

Lemma clean_PgRepo_DeleteBook id p :
  clean v p -> clean_status v (PgRepo.DeleteBook id p).
Proof.
  intros Hc. unfold PgRepo.DeleteBook, Pg.Begin, Pg.Commit.
  clean_step v Hc.
  { split; [now apply clean_advance|assumption]. }
  pose proof (clean_advance v p Hc) as Hc1.
  destruct (clean_exec_delete id (Pg.advance p) Hc1) as [Hp He].
  destruct (Pg.exec_delete id (Pg.advance p)) as [[affected|e] p2];
    cbn [fst snd] in *.
  2:{ split; [|assumption]. exact (clean_same_faults v p2 _ eq_refl Hp). }
  destruct (affected =? 0).
  { split; [|cbn [fst snd]; apply not_made; discriminate].
    exact (clean_same_faults v p2 _ eq_refl Hp). }
  clean_step v Hp.
  - split; [|assumption]. cbn [snd].
    apply (clean_same_faults v (Pg.advance p2)); [reflexivity|].
    now apply clean_advance.
  - split; [now apply clean_advance|exact I].
Qed.

End NeverMade.

(** X13. On the wired repository, as long as no fault of the server matches
    them, [services.ErrConflict] and [services.ErrPermissionDenied] are
    never part of an error of the service: no operation, on no input, gives
    the transport layer a reason to answer 409. *)
Theorem service_never_makes_Conflict :
  forall (v : sentinel) (p : Pg.Pool),
    v = SvcErrConflict \/ v = SvcErrPermissionDenied ->
    clean v p ->
    (forall req, clean_result v (BookService.CreateBook PgRepo.repo req p)) /\
    (forall id, clean_result v (BookService.GetByBookID PgRepo.repo id p)) /\
    (forall page pageSize,
        clean_result v (BookService.FetchAllBook PgRepo.repo page pageSize p)) /\
    (forall id req,
        clean_result v (BookService.UpdateBook PgRepo.repo id req p)) /\
    (forall id, clean_status v (BookService.DeleteBook PgRepo.repo id p)).
Proof.
  intros v p Hv Hc.
  assert (Hinv : Is (Sentinel SvcErrInvalidInput) v = false)
    by (apply not_made; [exact Hv|discriminate|discriminate]).
  assert (Hnf : Is (Sentinel SvcErrNotFound) v = false)
    by (apply not_made; [exact Hv|discriminate|discriminate]).
  assert (Hdata : Is (Sentinel RepoErrInvalidData) v = false)
    by (apply not_made; [exact Hv|discriminate|discriminate]).
  repeat apply conj.
  - intros req. unfold BookService.CreateBook.
    destruct (BookService.validateBookCreateRequest req);
      [split; assumption|].
    cbn [Pages]. destruct (cPages req <? 5); [split; assumption|].
    cbn [Repositories.CreateBook PgRepo.repo].
    destruct (clean_PgRepo_CreateBook v Hv (book_of_request req) p Hc)
      as [Hp He].
    fold (book_of_request req).
    destruct (PgRepo.CreateBook (book_of_request req) p) as [[b [e|]] p'];
      cbn [fst snd] in *; split; trivial.
  - intros id. unfold BookService.GetByBookID.
    destruct (id <=? 0); [split; assumption|].
    cbn [Repositories.GetByBookID PgRepo.repo].
    destruct (clean_PgRepo_GetByBookID v Hv id p Hc) as [Hp He].
    destruct (PgRepo.GetByBookID id p) as [[b|e] p']; cbn [fst snd] in *.
    + split; trivial.
    + destruct (Is e RepoErrBookNotFound); split; assumption.
  - intros page pageSize. unfold BookService.FetchAllBook.
    cbn [Repositories.FetchAllBook PgRepo.repo].
    destruct (clean_PgRepo_FetchAllBook v
                (BookService.clamp_page page)
                (BookService.clamp_pageSize pageSize) p Hc) as [Hp He].
    destruct (PgRepo.FetchAllBook _ _ p) as [[[books total]|e] p'];
      cbn [fst snd] in *; split; trivial.
  - intros id req. unfold BookService.UpdateBook.
    destruct (id <=? 0); [split; assumption|].
    destruct (BookService.validateBookUpdateRequest req);
      [split; assumption|].
    cbn [Repositories.GetByBookID Repositories.UpdateBook PgRepo.repo].
    destruct (clean_PgRepo_GetByBookID v Hv id p Hc) as [Hp He].
    destruct (PgRepo.GetByBookID id p) as [[b|e] p1]; cbn [fst snd] in *.
    2:{ destruct (Is e RepoErrBookNotFound); split; assumption. }
    destruct (clean_PgRepo_UpdateBook v Hv (BookService.merge b req) p1 Hp)
      as [Hp2 He2].
    destruct (PgRepo.UpdateBook (BookService.merge b req) p1)
      as [[b' [e|]] p2]; cbn [fst snd] in *; split; trivial.
  - intros id. unfold BookService.DeleteBook.
    destruct (id <=? 0); [split; assumption|].
    cbn [Repositories.GetByBookID Repositories.DeleteBook PgRepo.repo].
    destruct (clean_PgRepo_GetByBookID v Hv id p Hc) as [Hp He].
    destruct (PgRepo.GetByBookID id p) as [[b|e] p1]; cbn [fst snd] in *.
    2:{ destruct (Is e RepoErrBookNotFound); split; assumption. }
    destruct (clean_PgRepo_DeleteBook v Hv id p1 Hp) as [Hp2 He2].
    destruct (PgRepo.DeleteBook id p1) as [[e|] p2]; cbn [fst snd] in *;
      split; trivial.
Qed.

Lemma service_never_makes_Conflict_witness :
  clean_result SvcErrConflict
    (BookService.CreateBook PgRepo.repo Scenario.dune Scenario.with_dune).
Proof.
  apply (proj1 (service_never_makes_Conflict SvcErrConflict Scenario.with_dune
                  (or_introl eq_refl) (Forall_nil _))).
Defined.

(** * The transport layer *)

Lemma clamp_page_idem page :
  BookService.clamp_page (BookService.clamp_page page)
  = BookService.clamp_page page.
Proof.
  unfold BookService.clamp_page.
  destruct (Z.ltb_spec page 1); [reflexivity|].
  destruct (Z.ltb_spec page 1); [lia|reflexivity].
Qed.

Lemma clamp_pageSize_idem pageSize :
  BookService.clamp_pageSize (BookService.clamp_pageSize pageSize)
  = BookService.clamp_pageSize pageSize.
Proof.
  unfold BookService.clamp_pageSize.
  destruct (Z.ltb_spec pageSize 1); [reflexivity|].
  destruct (Z.gtb_spec pageSize 100); [reflexivity|].
  cbn [orb].
  destruct (Z.ltb_spec pageSize 1); [lia|].
  destruct (Z.gtb_spec pageSize 100); [lia|reflexivity].
Qed.

(** X14. [GetBook] answers a path id that [Atoi] rejects, or that is not
    positive, with status 400 and a body whose code is 404, and calls
    neither the service's repository nor anything else: the store is
    untouched and a counting repository counts no call. *)
Theorem GetBook_rejects_bad_id :
  forall (S : Type) (repo : BookRepository S) (id : string) (s : S) (n : nat),
    snd (Strconv.Atoi id) <> None \/ fst (Strconv.Atoi id) <= 0 ->
    Handlers.GetBook (Counted.repo repo) id (s, n)
    = (Handlers.mkResponse 400 []
         (Handlers.ErrorBody
            (Handlers.mkErrorResponse "invalid_id" "Invalid book ID" 404
               [Handlers.mkValidationError "id" "Must be a positive integer"])),
       (s, n)).
Proof.
  intros S repo id s n Hbad. unfold Handlers.GetBook.
  destruct (Strconv.Atoi id) as [z [err|]]; cbn [fst snd] in Hbad.
  - reflexivity.
  - destruct Hbad as [Hbad|Hbad]; [congruence|].
    assert (Hle : (z <=? 0) = true) by now apply Z.leb_le.
    now rewrite Hle.
Qed.

Lemma GetBook_rejects_bad_id_witness :
  Handlers.GetBook (Counted.repo PgRepo.repo) "-1" (Scenario.with_dune, 0%nat)
  = (Handlers.mkResponse 400 []
       (Handlers.ErrorBody
          (Handlers.mkErrorResponse "invalid_id" "Invalid book ID" 404
             [Handlers.mkValidationError "id" "Must be a positive integer"])),
     (Scenario.with_dune, 0%nat)).
Proof.
  apply (GetBook_rejects_bad_id Pg.Pool PgRepo.repo "-1" Scenario.with_dune
           0%nat).
  right. vm_compute. discriminate.
Defined.

(** X15. For a path id that [Atoi] reads as a positive number, [GetBook]
    is decided by the repository's lookup alone: the book with status 200,
    [Cache-Control] and an [ETag] of id and seconds of [updated_at]; status
    404 with message "not found" when the lookup reports [ErrBookNotFound];
    otherwise what the error mapping makes of the wrapped repository error.
    The check of the service for ids that are not positive is never
    reached. *)
Theorem GetBook_good_id :
  forall (S : Type) (repo : BookRepository S) (id : string) (z : Z) (s : S),
    Strconv.Atoi id = (z, None) ->
    0 < z ->
    Handlers.GetBook repo id s =
      match Repositories.GetByBookID repo z s with
      | (Ok book, s') =>
          (Handlers.mkResponse 200
             [("Cache-Control", "max-age=3600, public");
              ("ETag", Strconv.Itoa (ID book) ++ "-"
                       ++ Strconv.Itoa (UpdatedAt book / 1000000))]
             (Handlers.BookBody book), s')
      | (Err e, s') =>
          if Is e RepoErrBookNotFound
          then (Handlers.mkResponse 404 []
                  (Handlers.ErrorBody
                     (Handlers.mkErrorResponse "not_found" "not found" 404 [])),
                s')
          else (Handlers.handleServiceError (BookService.repository_error e),
                s')
      end.
Proof.
  intros S repo id z s Hparse Hpos.
  assert (Hle : (z <=? 0) = false) by now apply Z.leb_gt.
  unfold Handlers.GetBook, BookService.GetByBookID. rewrite Hparse, Hle.
  cbn [orb].
  destruct (Repositories.GetByBookID repo z s) as [[book|e] s'];
    [reflexivity|].
  destruct (Is e RepoErrBookNotFound); reflexivity.
Qed.

Lemma GetBook_good_id_witness :
  Handlers.GetBook PgRepo.repo "1" Scenario.with_dune
  = (Handlers.mkResponse 200
       [("Cache-Control", "max-age=3600, public"); ("ETag", "1-0")]
       (Handlers.BookBody Scenario.dune_book),
     Pg.advance Scenario.with_dune).
Proof.
  rewrite (GetBook_good_id Pg.Pool PgRepo.repo "1" 1 Scenario.with_dune
             eq_refl ltac:(lia)).
  reflexivity.
Defined.

(** X16. [ListBooks] never answers "invalid_pagination": whatever the query
    strings are, the page and the limit it has corrected pass its own
    validation and are not changed again by the service, so the repository
    is asked for exactly the page and limit that the response echoes. The
    response carries the total number of rows in [total_pages] and leaves
    [page_size] at zero. *)
Theorem ListBooks_echoes_the_query_it_runs :
  forall (S : Type) (repo : BookRepository S) (page limit : string) (s : S),
    Handlers.ListBooks repo page limit s =
      match Repositories.FetchAllBook repo
              (BookService.clamp_page (fst (Strconv.Atoi page)))
              (BookService.clamp_pageSize (fst (Strconv.Atoi limit))) s with
      | (Ok (books, total), s') =>
          (Handlers.mkResponse 200 [("Cache-Control", "max-age=60, public")]
             (Handlers.ListBody
                (Handlers.mkBookListResponse books
                   (BookService.clamp_page (fst (Strconv.Atoi page)))
                   0 total
                   (BookService.clamp_pageSize (fst (Strconv.Atoi limit))))),
           s')
      | (Err e, s') =>
          (Handlers.handleServiceError (BookService.repository_error e), s')
      end /\
    1 <= BookService.clamp_page (fst (Strconv.Atoi page)) /\
    1 <= BookService.clamp_pageSize (fst (Strconv.Atoi limit)) <= 100.
Proof.
  intros S repo page limit s.
  pose proof (clamp_page_ge_1 (fst (Strconv.Atoi page))) as Hp.
  pose proof (clamp_pageSize_range (fst (Strconv.Atoi limit))) as Hl.
  split; [|split; assumption].
  unfold Handlers.ListBooks.
  fold (BookService.clamp_page (fst (Strconv.Atoi page))).
  fold (BookService.clamp_pageSize (fst (Strconv.Atoi limit))).
  cbv zeta.
  assert (Hvalid : Handlers.valid_QueryParams
                     (BookService.clamp_page (fst (Strconv.Atoi page)))
                     (BookService.clamp_pageSize (fst (Strconv.Atoi limit)))
                   = true).
  { unfold Handlers.valid_QueryParams.
    rewrite !andb_true_iff, !Z.leb_le. lia. }
  rewrite Hvalid. cbn [negb].
  unfold BookService.FetchAllBook.
  rewrite clamp_page_idem, clamp_pageSize_idem.
  destruct (Repositories.FetchAllBook repo _ _ s) as [[[books total]|e] s'];
    reflexivity.
Qed.

(** * Configuration from the environment *)

Lemma SplitN_eq_app key value :
  Main.contains "=" key = false ->
  Main.SplitN_eq (key ++ "=" ++ value) = Some (key, value).
Proof.
  induction key as [|c key IH]; intros H; [reflexivity|].
  cbn [Main.contains] in H.
  apply orb_false_elim in H. destruct H as [Hc Hkey].
  change (Main.SplitN_eq (String c (key ++ "=" ++ value))
          = Some (String c key, value)).
  cbn [Main.SplitN_eq]. rewrite Hc, (IH Hkey). reflexivity.
Qed.

Lemma SplitN_eq_none line :
  Main.contains "=" line = false -> Main.SplitN_eq line = None.
Proof.
  induction line as [|c line IH]; intros H; [reflexivity|].
  cbn [Main.contains] in H.
  apply orb_false_elim in H. destruct H as [Hc Hline].
  cbn [Main.SplitN_eq]. now rewrite Hc, (IH Hline).
Qed.

Lemma HasPrefix_hash_app key rest :
  key <> "" -> Main.HasPrefix_hash (key ++ rest) = Main.HasPrefix_hash key.
Proof. destruct key; [congruence|reflexivity]. Qed.

(** X17. The file wins over the process environment. When the last line
    of [.env] is [KEY=VALUE] (a key that is not empty, does not start with
    [#], holds no [=] and no NUL byte; a value without NUL byte; both left
    alone by [TrimSpace]), [getEnv KEY] returns [VALUE], whatever the
    default, the earlier lines of the file and the value [KEY] had in the
    environment of the process. *)
Theorem getEnv_file_wins :
  forall (TrimSpace : string -> string) (key value defaultValue : string)
         (earlier : list string) (env : Main.Environ),
    key <> "" ->
    Main.HasPrefix_hash key = false ->
    Main.contains "=" key = false ->
    Main.contains Main.NUL key = false ->
    Main.contains Main.NUL value = false ->
    TrimSpace (key ++ "=" ++ value) <> "" ->
    TrimSpace key = key ->
    TrimSpace value = value ->
    fst (Main.getEnv TrimSpace key defaultValue
           (Some (earlier ++ [(key ++ "=" ++ value)%string])%list) env) = value.
Proof.
  intros TrimSpace key value d earlier env Hne Hhash Heq Hnul Hvnul Hline Hk Hv.
  unfold Main.getEnv, Main.loadEnvFile.
  rewrite fold_left_app. cbn [fold_left].
  remember (fold_left (Main.loadEnvLine TrimSpace) earlier env) as env1.
  unfold Main.loadEnvLine.
  destruct (String.eqb_spec (TrimSpace (key ++ "=" ++ value)) "") as [E|_];
    [contradiction|].
  rewrite (HasPrefix_hash_app key _ Hne), Hhash. cbn [orb].
  rewrite (SplitN_eq_app key value Heq), Hk, Hv.
  unfold Main.Setenv.
  destruct (String.eqb_spec key "") as [E|_]; [contradiction|].
  rewrite Heq, Hnul, Hvnul. cbn [orb].
  unfold Main.LookupEnv.
  destruct (String.eqb_spec key "") as [E|_]; [contradiction|].
  cbn [Main.assoc]. now rewrite String.eqb_refl.
Qed.

Lemma getEnv_file_wins_witness :
  fst (Main.getEnv Main.TrimSpace_ascii "DB_HOST" "localhost"
         (Some (["# database"; "DB_PORT=5433"]
                ++ [("DB_HOST" ++ "=" ++ "db.internal")%string])%list)
         [("DB_HOST", "10.0.0.7")]) = "db.internal".
Proof.
  apply (getEnv_file_wins Main.TrimSpace_ascii "DB_HOST" "db.internal"
           "localhost" ["# database"; "DB_PORT=5433"] [("DB_HOST", "10.0.0.7")]).
  - discriminate.
  - reflexivity.
  - reflexivity.
  - reflexivity.
  - reflexivity.
  - vm_compute. discriminate.
  - reflexivity.
  - reflexivity.
Defined.

(** X18. A file that holds only blank lines, lines that start with [#] and
    lines without [=] leaves the environment exactly as it was, and [getEnv]
    then answers from the process environment or with the default. *)
Theorem loadEnvFile_inert_lines :
  forall (TrimSpace : string -> string) (lines : list string)
         (env : Main.Environ) (key defaultValue : string),
    Forall (fun line => TrimSpace line = "" \/
                        Main.HasPrefix_hash line = true \/
                        Main.contains "=" line = false) lines ->
    Main.loadEnvFile TrimSpace (Some lines) env = (true, env) /\
    Main.getEnv TrimSpace key defaultValue (Some lines) env
    = (match Main.LookupEnv key env with
       | Some value => value
       | None => defaultValue
       end, env).
Proof.
  intros TrimSpace lines env key d Hlines.
  assert (Hfold : fold_left (Main.loadEnvLine TrimSpace) lines env = env).
  { induction Hlines as [|line lines Hline _ IH]; cbn [fold_left];
      [reflexivity|].
    assert (Hone : Main.loadEnvLine TrimSpace env line = env).
    { unfold Main.loadEnvLine. destruct Hline as [H|[H|H]].
      - now rewrite H.
      - rewrite H. now rewrite orb_true_r.
      - rewrite (SplitN_eq_none line H).
        now destruct (_ || _). }
    now rewrite Hone. }
  unfold Main.getEnv, Main.loadEnvFile. rewrite Hfold.
  split; [reflexivity|]. now destruct (Main.LookupEnv key env).
Qed.

Lemma loadEnvFile_inert_lines_witness :
  Main.loadEnvFile Main.TrimSpace_ascii
    (Some ["# database"; "   "; "DB_HOST localhost"]) [("DB_HOST", "10.0.0.7")]
  = (true, [("DB_HOST", "10.0.0.7")]) /\
  Main.getEnv Main.TrimSpace_ascii "DB_NAME" "bookdb"
    (Some ["# database"; "   "; "DB_HOST localhost"]) [("DB_HOST", "10.0.0.7")]
  = (match Main.LookupEnv "DB_NAME" [("DB_HOST", "10.0.0.7")] with
     | Some value => value
     | None => "bookdb"
     end, [("DB_HOST", "10.0.0.7")]).
Proof.
  apply (loadEnvFile_inert_lines Main.TrimSpace_ascii
           ["# database"; "   "; "DB_HOST localhost"]
           [("DB_HOST", "10.0.0.7")] "DB_NAME" "bookdb").
  apply Forall_cons; [right; left; reflexivity|].
  apply Forall_cons; [left; reflexivity|].
  apply Forall_cons; [right; right; reflexivity|].
  apply Forall_nil.
Defined.

(** * More on errors and calls *)

Lemma PgRepo_DeleteBook_missing_witness :
  exists p',
    PgRepo.DeleteBook 7 Scenario.with_dune
      = (Some (Sentinel RepoErrBookNotFound), p') /\
    Pg.rows p' = Pg.rows Scenario.with_dune.
Proof.
  apply (PgRepo_DeleteBook_missing Scenario.with_dune 7).
  - reflexivity.
  - reflexivity.
Defined.

(** X20. When the insert of [CreateBook] is refused with SQLSTATE 23503
    (foreign-key violation), the service returns an error that matches
    [repositories.ErrInvalidReference], carries the message of the server in
    its text, no longer reaches the [PgError] through [errors.As], and is an
    internal error for the transport layer, which sends that text to the
    client. *)
Theorem CreateBook_foreign_key_violation :
  forall (req : BookCreateRequest) (p p' : Pg.Pool) (e : error)
         (message : string),
    BookService.validateBookCreateRequest req = None ->
    5 <= cPages req ->
    Pg.insert_returning (cTitle req) (cAuthor req) (cPublished req)
                        (cISBN req) (cPages req) p = (Err e, p') ->
    AsPgError e = Some ("23503", message) ->
    exists err,
      BookService.CreateBook PgRepo.repo req p = (Err err, p') /\
      Is err RepoErrInvalidReference = true /\
      AsPgError err = None /\
      Error err = "repository error: invalid reference: the referenced record does not exist: "
                  ++ message /\
      Handlers.handleServiceError err
      = Handlers.mkResponse 500 []
          (Handlers.ErrorBody
             (Handlers.mkErrorResponse "internal_error" (Error err) 500 [])).
Proof.
  intros req p p' e message Hv Hpages Hins Has.
  assert (Hlt : (cPages req <? 5) = false) by now apply Z.ltb_ge.
  unfold BookService.CreateBook. rewrite Hv. cbn [Pages]. rewrite Hlt.
  cbn [Repositories.CreateBook PgRepo.repo].
  unfold PgRepo.CreateBook. cbn [Title Author Published ISBN Pages].
  rewrite Hins, Has. cbn [String.eqb Ascii.eqb Bool.eqb].
  eexists. repeat split.
Qed.

Lemma CreateBook_foreign_key_violation_witness :
  exists err,
    BookService.CreateBook PgRepo.repo Scenario.dune
      (Pg.mkPool [] 1 1000 [Some (Pg "23503" "violates foreign key constraint")])
      = (Err err, Pg.mkPool [] 1 1001 []) /\
    Is err RepoErrInvalidReference = true /\
    AsPgError err = None /\
    Error err = "repository error: invalid reference: the referenced record does not exist: "
                ++ "violates foreign key constraint" /\
    Handlers.handleServiceError err
    = Handlers.mkResponse 500 []
        (Handlers.ErrorBody
           (Handlers.mkErrorResponse "internal_error" (Error err) 500 [])).
Proof.
  apply (CreateBook_foreign_key_violation Scenario.dune
           (Pg.mkPool [] 1 1000
                      [Some (Pg "23503" "violates foreign key constraint")])
           (Pg.mkPool [] 1 1001 [])
           (Pg "23503" "violates foreign key constraint")
           "violates foreign key constraint").
  - reflexivity.
  - simpl. lia.
  - reflexivity.
  - reflexivity.
Defined.

Lemma Counted_run_count {S A : Type} (m : S -> A * S) (s : S) (n : nat) :
  snd (snd (Counted.run m (s, n))) = Datatypes.S n.
Proof. unfold Counted.run. cbn [fst snd]. now destruct (m s). Qed.

(** X21. Nothing is retried: whatever the repository answers, [CreateBook],
    [GetByBookID] and [FetchAllBook] call it at most once, and [UpdateBook]
    and [DeleteBook] at most twice (the lookup and the write). *)
Theorem service_calls_are_bounded :
  forall (S : Type) (repo : BookRepository S) (s : S) (n : nat),
    (forall req,
        (snd (snd (BookService.CreateBook (Counted.repo repo) req (s, n)))
         <= n + 1)%nat) /\
    (forall id,
        (snd (snd (BookService.GetByBookID (Counted.repo repo) id (s, n)))
         <= n + 1)%nat) /\
    (forall page pageSize,
        snd (snd (BookService.FetchAllBook (Counted.repo repo) page pageSize
                    (s, n))) = (n + 1)%nat) /\
    (forall id req,
        (snd (snd (BookService.UpdateBook (Counted.repo repo) id req (s, n)))
         <= n + 2)%nat) /\
    (forall id,
        (snd (snd (BookService.DeleteBook (Counted.repo repo) id (s, n)))
         <= n + 2)%nat).
Proof.
  intros S repo s n. repeat apply conj.
  - intros req. unfold BookService.CreateBook.
    destruct (BookService.validateBookCreateRequest req); [cbn; lia|].
    cbn [Pages]. destruct (cPages req <? 5); [cbn; lia|].
    cbn [Repositories.CreateBook Counted.repo].
    pose proof (Counted_run_count
                  (Repositories.CreateBook repo (book_of_request req)) s n) as H.
    fold (book_of_request req).
    destruct (Counted.run _ (s, n)) as [[b [e|]] s']; cbn [snd] in *; lia.
  - intros id. unfold BookService.GetByBookID.
    destruct (id <=? 0); [cbn; lia|].
    cbn [Repositories.GetByBookID Counted.repo].
    pose proof (Counted_run_count (Repositories.GetByBookID repo id) s n) as H.
    destruct (Counted.run _ (s, n)) as [[b|e] s']; cbn [snd] in *; [lia|].
    destruct (Is e RepoErrBookNotFound); cbn [snd]; lia.
  - intros page pageSize. unfold BookService.FetchAllBook.
    cbn [Repositories.FetchAllBook Counted.repo].
    pose proof (Counted_run_count
                  (Repositories.FetchAllBook repo
                     (BookService.clamp_page page)
                     (BookService.clamp_pageSize pageSize)) s n) as H.
    destruct (Counted.run _ (s, n)) as [[[books total]|e] s'];
      cbn [snd] in *; lia.
  - intros id req. unfold BookService.UpdateBook.
    destruct (id <=? 0); [cbn; lia|].
    destruct (BookService.validateBookUpdateRequest req); [cbn; lia|].
    cbn [Repositories.GetByBookID Repositories.UpdateBook Counted.repo].
    pose proof (Counted_run_count (Repositories.GetByBookID repo id) s n) as H.
    destruct (Counted.run _ (s, n)) as [[b|e] [s1 n1]]; cbn [snd] in H.
    2:{ destruct (Is e RepoErrBookNotFound); cbn [snd]; lia. }
    pose proof (Counted_run_count
                  (Repositories.UpdateBook repo (BookService.merge b req))
                  s1 n1) as H2.
    destruct (Counted.run _ (s1, n1)) as [[b' [e|]] s2]; cbn [snd] in *; lia.
  - intros id. unfold BookService.DeleteBook.
    destruct (id <=? 0); [cbn; lia|].
    cbn [Repositories.GetByBookID Repositories.DeleteBook Counted.repo].
    pose proof (Counted_run_count (Repositories.GetByBookID repo id) s n) as H.
    destruct (Counted.run _ (s, n)) as [[b|e] [s1 n1]]; cbn [snd] in H.
    2:{ destruct (Is e RepoErrBookNotFound); cbn [snd]; lia. }
    pose proof (Counted_run_count (Repositories.DeleteBook repo id) s1 n1)
      as H2.
    destruct (Counted.run _ (s1, n1)) as [[e|] s2]; cbn [snd] in *; lia.
Qed.

(** X22. [UpdateBook] and [DeleteBook] of the transport layer answer a path
    id that [Atoi] rejects, or that is not positive, with status 400 and a
    body whose code is 404, and an update whose body cannot be bound with
    status 400 and code 400; in all three cases no repository is called. *)
Theorem handlers_reject_before_the_service :
  forall (S : Type) (repo : BookRepository S) (id : string) (s : S) (n : nat),
    (snd (Strconv.Atoi id) <> None \/ fst (Strconv.Atoi id) <= 0 ->
     (forall req,
         Handlers.UpdateBook (Counted.repo repo) id req (s, n)
         = (Handlers.mkResponse 400 []
              (Handlers.ErrorBody
                 (Handlers.mkErrorResponse "invalid_id" "Invalid book ID" 404
                                           [])), (s, n))) /\
     Handlers.DeleteBook (Counted.repo repo) id (s, n)
     = (Handlers.mkResponse 400 []
          (Handlers.ErrorBody
             (Handlers.mkErrorResponse "invalid_id" "Invalid book ID" 404 [])),
        (s, n))) /\
    (snd (Strconv.Atoi id) = None -> 0 < fst (Strconv.Atoi id) ->
     Handlers.UpdateBook (Counted.repo repo) id None (s, n)
     = (Handlers.mkResponse 400 []
          (Handlers.ErrorBody
             (Handlers.mkErrorResponse "invalid_request"
                                       "Invalid request payload" 400 [])),
        (s, n))).
Proof.
  intros S repo id s n. unfold Handlers.UpdateBook, Handlers.DeleteBook.
  destruct (Strconv.Atoi id) as [z [err|]]; cbn [fst snd].
  - split; [intros _; split; [intros req|]; reflexivity|].
    intros H. discriminate H.
  - split.
    + intros [H|H]; [congruence|].
      assert (Hle : (z <=? 0) = true) by now apply Z.leb_le.
      rewrite Hle. split; [intros req|]; reflexivity.
    + intros _ H.
      assert (Hle : (z <=? 0) = false) by now apply Z.leb_gt.
      now rewrite Hle.
Qed.

Lemma handlers_reject_before_the_service_witness :
  Handlers.DeleteBook (Counted.repo PgRepo.repo) "abc"
                      (Scenario.with_dune, 0%nat)
  = (Handlers.mkResponse 400 []
       (Handlers.ErrorBody
          (Handlers.mkErrorResponse "invalid_id" "Invalid book ID" 404 [])),
     (Scenario.with_dune, 0%nat)).
Proof.
  apply (proj1 (handlers_reject_before_the_service Pg.Pool PgRepo.repo "abc"
                  Scenario.with_dune 0%nat)).
  left. vm_compute. discriminate.
Defined.
